(** * Meta onboarding assistant ([app.py]): model and verified properties

    The program is a Streamlit script.  Streamlit executes the script from
    top to bottom once per user interaction (page load, role change, text
    entry, button press); only [st.session_state] survives from one
    execution to the next.  One call of [main] below is one such execution.

    Strings are byte strings ([String.string]); the non-ASCII characters of
    the messages are kept as their UTF-8 bytes. *)

From Stdlib Require Import String Ascii List Bool Arith Lia.
Import ListNotations.
Open Scope list_scope.
Open Scope nat_scope.
Open Scope string_scope.

Set Warnings "-register-all".

(** ** Python values and built-ins used by the script *)

Module Py.

(** The values stored in the knowledge base: strings and (insertion-ordered)
    dictionaries with string keys. *)
Inductive pyval : Type :=
| PStr (s : string)
| PDict (items : list (string * pyval)).

Definition dict := list (string * pyval).

(** [d[k]] on a dictionary: [None] stands for [KeyError]. *)
Fixpoint dict_get (k : string) (d : dict) : option pyval :=
  match d with
  | [] => None
  | (k', v) :: rest => if String.eqb k k' then Some v else dict_get k rest
  end.

(** Truth value of a string ([if s:]): empty strings are falsy. *)
Definition truthy (s : string) : bool :=
  match s with
  | EmptyString => false
  | String _ _ => true
  end.

(** Truth value of an optional string ([None] and the empty string are falsy). *)
Definition truthy_opt (o : option string) : bool :=
  match o with
  | None => false
  | Some s => truthy s
  end.

Definition quote : string := String (ascii_of_nat 34) EmptyString.
Definition backslash : string := String (ascii_of_nat 92) EmptyString.

Definition is_upper (c : ascii) : bool :=
  let n := nat_of_ascii c in ((65 <=? n) && (n <=? 90))%nat.
Definition is_lower (c : ascii) : bool :=
  let n := nat_of_ascii c in ((97 <=? n) && (n <=? 122))%nat.
Definition to_upper (c : ascii) : ascii :=
  if is_lower c then ascii_of_nat (nat_of_ascii c - 32) else c.
Definition to_lower (c : ascii) : ascii :=
  if is_upper c then ascii_of_nat (nat_of_ascii c + 32) else c.

(** [str.title()] on ASCII text: a letter is upper-cased when the character
    before it is not a letter, and lower-cased otherwise. *)
Fixpoint title_from (prev_cased : bool) (s : string) : string :=
  match s with
  | EmptyString => EmptyString
  | String c rest =>
      if is_upper c || is_lower c
      then String (if prev_cased then to_lower c else to_upper c)
                  (title_from true rest)
      else String c (title_from false rest)
  end.

Definition title (s : string) : string := title_from false s.

Definition hex_digit (n : nat) : ascii :=
  if (n <? 10)%nat then ascii_of_nat (48 + n) else ascii_of_nat (87 + n).

(** The escape [json.dumps] applies to one character (default
    [ensure_ascii=True]): every character outside the printable
    ASCII range, the double quote and the backslash are escaped.  Exact for
    code points below 128; the knowledge base holds no other. *)
Definition json_escape_char (c : ascii) : string :=
  let n := nat_of_ascii c in
  if (n =? 34)%nat then backslash ++ quote
  else if (n =? 92)%nat then backslash ++ backslash
  else if (n =? 10)%nat then backslash ++ "n"
  else if (n =? 13)%nat then backslash ++ "r"
  else if (n =? 9)%nat then backslash ++ "t"
  else if (n =? 8)%nat then backslash ++ "b"
  else if (n =? 12)%nat then backslash ++ "f"
  else if ((32 <=? n) && (n <=? 126))%nat then String c EmptyString
  else backslash ++ "u00"
       ++ String (hex_digit (n / 16)) (String (hex_digit (n mod 16)) EmptyString).

Fixpoint json_escape (s : string) : string :=
  match s with
  | EmptyString => EmptyString
  | String c rest => json_escape_char c ++ json_escape rest
  end.

Definition json_string (s : string) : string := quote ++ json_escape s ++ quote.

(** [json.dumps] with its default separators (comma-space between members,
    colon-space between a key and its value). *)
Fixpoint json_dumps (v : pyval) : string :=
  match v with
  | PStr s => json_string s
  | PDict d =>
      "{" ++
      (fix members (l : list (string * pyval)) : string :=
         match l with
         | [] => ""
         | (k, x) :: rest =>
             json_string k ++ ": " ++ json_dumps x ++
             match rest with
             | [] => ""
             | _ :: _ => ", " ++ members rest
             end
         end) d
      ++ "}"
  end.

(** [repr] of a string free of quotes, backslashes and control characters. *)
Definition repr_str (s : string) : string := "'" ++ s ++ "'".

(** [str(v)], as an f-string applies it.  For a dictionary this is its
    [repr]; the script only ever formats strings. *)
Fixpoint str (v : pyval) : string :=
  match v with
  | PStr s => s
  | PDict d =>
      "{" ++
      (fix members (l : list (string * pyval)) : string :=
         match l with
         | [] => ""
         | (k, x) :: rest =>
             repr_str k ++ ": "
             ++ match x with PStr s => repr_str s | PDict _ => str x end
             ++ match rest with
                | [] => ""
                | _ :: _ => ", " ++ members rest
                end
         end) d
      ++ "}"
  end.

End Py.
Import Py.

(** ** The knowledge base ([load_company_data]) *)

Definition load_company_data : dict :=
  [ ("policies", PDict
      [ ("work_hours", PStr "Meta operates on flexible work hours with core collaboration hours from 10 AM to 4 PM local time.");
        ("remote_work", PStr "Meta offers hybrid work options with a minimum of 3 days in office per week.");
        ("code_of_conduct", PStr "Meta employees must adhere to our community standards and ethical guidelines.");
        ("security", PStr "All employees must use two-factor authentication and follow security protocols.");
        ("benefits", PStr "Comprehensive health insurance, 401(k) matching, RSUs, and wellness programs.") ]);
    ("roles", PDict
      [ ("software_engineer", PDict
          [ ("responsibilities", PStr "Develop and maintain Meta's products and infrastructure");
            ("tools", PStr "Internal development tools, Git, Meta's testing frameworks");
            ("team_structure", PStr "Agile teams with daily standups and bi-weekly sprints") ]);
        ("product_manager", PDict
          [ ("responsibilities", PStr "Drive product strategy and execution");
            ("tools", PStr "Product analytics tools, roadmap planning software");
            ("team_structure", PStr "Cross-functional teams with engineers and designers") ]);
        ("data_scientist", PDict
          [ ("responsibilities", PStr "Analyze user behavior and product metrics");
            ("tools", PStr "Internal analytics platforms, Python, SQL");
            ("team_structure", PStr "Embedded in product teams with regular stakeholder reviews") ]) ]);
    ("faqs", PDict
      [ ("first_day", PStr "You'll attend orientation, set up your workstation, and meet your team.");
        ("it_support", PStr "Contact IT Help Desk through workplace portal or email it@meta.com");
        ("parking", PStr "Free parking available at all Meta offices with registered vehicle");
        ("dress_code", PStr "Casual dress code - be comfortable and professional");
        ("lunch", PStr "Free meals provided at all Meta cafeterias") ]) ].

(** The three options of the role selector, in display order. *)
Inductive Role : Type := software_engineer | product_manager | data_scientist.

Definition role_key (r : Role) : string :=
  match r with
  | software_engineer => "software_engineer"
  | product_manager => "product_manager"
  | data_scientist => "data_scientist"
  end.

Definition role_options : list string :=
  ["software_engineer"; "product_manager"; "data_scientist"].

(** ** Exceptions, the page, the session and the remote service *)

(** Exceptions derived from [Exception].  [InvalidArgument] is the one of
    [google.api_core.exceptions]; [OtherException] stands for every other
    class ([TypeError], [ValueError], transport errors, ...). *)
Inductive exn : Type :=
| InvalidArgument (msg : string)
| KeyError (key : string)
| OtherException (msg : string).

(** [str(e)]. *)
Definition exn_str (e : exn) : string :=
  match e with
  | InvalidArgument msg => msg
  | KeyError key => repr_str key
  | OtherException msg => msg
  end.

Inductive result (A : Type) : Type :=
| Ok (a : A)
| Err (e : exn).
Arguments Ok {A} a.
Arguments Err {A} e.

(** What [model.generate_content] returns; reading [.text] may itself raise. *)
Record response : Type := mkResponse { text : result string }.

Record GenerativeModel : Type := mkModel { model_name : string }.

(** Everything outside the script: the environment variable and the
    [google.generativeai] library.  [generate_content m n p] is the outcome
    of sending prompt [p] to model [m] when [n] calls were sent before. *)
Record Env : Type := mkEnv {
  getenv_GEMINI_API_KEY : option string;
  genai_configure : string -> option exn;
  genai_GenerativeModel : string -> option exn;
  generate_content : string -> nat -> string -> result response
}.

(** Elements a run of the script puts on the page. *)
Inductive element : Type :=
| PageConfig (page_title page_icon layout : string)
| Title (body : string)
| Write (args : list string)
| Error (body : string)
| Code (body : string)
| Selectbox (label : string) (options : list string)
| TextInput (label : string)
| Button (label : string)
| Sidebar (e : element).

Definition entry : Type := string * string.

(** [calls]: the prompts passed to [model.generate_content] so far, oldest
    first (a request counts whether it is answered or fails).
    [screen]: the elements rendered by the current run.
    [session_state]: the [chat_history] entry of [st.session_state]
    ([None] while the key is absent). *)
Record World : Type := mkWorld {
  calls : list string;
  screen : list element;
  session_state : option (list entry)
}.

(** The widget values of one run. *)
Record Inputs : Type := mkInputs {
  role : Role;
  user_input : string;
  send : bool
}.

(** How a piece of script ends: it returns, [st.stop()] ends the run
    ([StopException] derives from [BaseException], so no [except Exception]
    clause catches it), or an exception is raised. *)
Inductive outcome (A : Type) : Type :=
| Returned (a : A)
| Stopped
| Raised (e : exn).
Arguments Returned {A} a.
Arguments Stopped {A}.
Arguments Raised {A} e.

Definition Script (A : Type) : Type := World -> outcome A * World.

Definition ret {A} (a : A) : Script A := fun w => (Returned a, w).

Definition bind {A B} (m : Script A) (f : A -> Script B) : Script B :=
  fun w =>
    match m w with
    | (Returned a, w') => f a w'
    | (Stopped, w') => (Stopped, w')
    | (Raised e, w') => (Raised e, w')
    end.

Notation "x <- c1 ;; c2" := (bind c1 (fun x => c2))
  (at level 61, c1 at next level, right associativity).
Notation "c1 ;; c2" := (bind c1 (fun _ => c2))
  (at level 61, right associativity).

Definition raise {A} (e : exn) : Script A := fun w => (Raised e, w).

Definition st_stop {A} : Script A := fun w => (Stopped, w).

(** [try: body except Exception as e: handler e]; several [except] clauses
    are a case distinction inside [handler]. *)
Definition try_except {A} (body : Script A) (handler : exn -> Script A) : Script A :=
  fun w =>
    match body w with
    | (Raised e, w') => handler e w'
    | r => r
    end.

Fixpoint for_each {A} (l : list A) (body : A -> Script unit) : Script unit :=
  match l with
  | [] => ret tt
  | x :: rest => body x ;; for_each rest body
  end.

Definition render (e : element) : Script unit :=
  fun w => (Returned tt, mkWorld (calls w) (screen w ++ [e])%list (session_state w)).

Definition st_error (body : string) : Script unit := render (Error body).
Definition st_write (args : list string) : Script unit := render (Write args).
Definition st_code (body : string) : Script unit := render (Code body).
Definition st_title (body : string) : Script unit := render (Title body).
Definition sidebar_write (args : list string) : Script unit :=
  render (Sidebar (Write args)).

(** [d[k]] on a value. *)
Definition subscript (v : pyval) (k : string) : Script pyval :=
  match v with
  | PDict d =>
      match dict_get k d with
      | Some x => ret x
      | None => raise (KeyError k)
      end
  | PStr _ => raise (OtherException "TypeError: string indices must be integers")
  end.

(** [v.items()]. *)
Definition items_of (v : pyval) : Script (list (string * pyval)) :=
  match v with
  | PDict d => ret d
  | PStr _ => raise (OtherException "AttributeError: 'str' object has no attribute 'items'")
  end.

(** [if 'chat_history' not in st.session_state: st.session_state.chat_history = []] *)
Definition init_chat_history : Script unit :=
  fun w =>
    match session_state w with
    | None => (Returned tt, mkWorld (calls w) (screen w) (Some []))
    | Some _ => (Returned tt, w)
    end.

Definition get_chat_history : Script (list entry) :=
  fun w =>
    match session_state w with
    | Some h => (Returned h, w)
    | None => (Raised (OtherException "AttributeError: st.session_state has no attribute 'chat_history'"), w)
    end.

(** [st.session_state.chat_history.append(e)] *)
Definition append_chat_history (e : entry) : Script unit :=
  h <- get_chat_history ;;
  fun w => (Returned tt, mkWorld (calls w) (screen w) (Some (h ++ [e])%list)).

(** [genai.configure(api_key=...)]: local, no request is sent. *)
Definition configure (env : Env) (api_key : string) : Script unit :=
  match genai_configure env api_key with
  | None => ret tt
  | Some e => raise e
  end.

(** [genai.GenerativeModel(name)]: local, no request is sent. *)
Definition new_GenerativeModel (env : Env) (name : string) : Script GenerativeModel :=
  match genai_GenerativeModel env name with
  | None => ret (mkModel name)
  | Some e => raise e
  end.

(** [model.generate_content(prompt)]: the one remote call of the program. *)
Definition model_generate_content (env : Env) (model : GenerativeModel)
    (prompt : string) : Script response :=
  fun w =>
    let w' := mkWorld (calls w ++ [prompt])%list (screen w) (session_state w) in
    match generate_content env (model_name model) (length (calls w)) prompt with
    | Ok r => (Returned r, w')
    | Err e => (Raised e, w')
    end.

(** [response.text] *)
Definition response_text (r : response) : Script string :=
  match text r with
  | Ok t => ret t
  | Err e => raise e
  end.

(** ** The script *)

Definition nl : string := String (ascii_of_nat 10) EmptyString.

(** [configure_gemini()].  The test [if not api_key] is the first case
    distinction: [None] and the empty string take the error branch. *)
Definition configure_gemini (env : Env) : Script (option GenerativeModel) :=
  try_except
    (match getenv_GEMINI_API_KEY env with
     | Some (String _ _ as api_key) =>
         configure env api_key ;;
         try_except
           (model <- new_GenerativeModel env "gemini-pro" ;;
            _ <- model_generate_content env model "Test" ;;
            ret (Some model))
           (fun e =>
              match e with
              | InvalidArgument _ =>
                  st_error "❌ Invalid API key. Please check your GEMINI_API_KEY in the .env file." ;;
                  st_stop
              | _ =>
                  st_error ("❌ Error initializing Gemini model: " ++ exn_str e) ;;
                  st_stop
              end)
     | _ =>
         st_error "❌ GEMINI_API_KEY not found in environment variables. Please check your .env file." ;;
         st_stop
     end)
    (fun e =>
       st_error ("❌ Configuration error: " ++ exn_str e) ;;
       st_stop).

(** The f-string bound to [prompt] in [generate_response]. *)
Definition build_prompt (query context : string) : string :=
  nl ++
  "        You are Meta's AI onboarding assistant. Using the following company information, " ++ nl ++
  "        provide a helpful and friendly response to the query. Stay strictly within the " ++ nl ++
  "        provided context and if information isn't available, kindly say so." ++ nl ++
  nl ++
  "        Context:" ++ nl ++
  "        " ++ context ++ nl ++
  nl ++
  "        Query: " ++ query ++ nl ++
  nl ++
  "        Provide a conversational, helpful response focusing only on relevant information." ++ nl ++
  "        ".

(** [generate_response(model, query, context)]; [None] is Python's [None]. *)
Definition generate_response (env : Env) (model : GenerativeModel)
    (query context : string) : Script (option string) :=
  try_except
    (let prompt := build_prompt query context in
     response <- model_generate_content env model prompt ;;
     t <- response_text response ;;
     ret (Some t))
    (fun e =>
       match e with
       | InvalidArgument _ =>
           st_error "❌ API Error: Invalid API key or request. Please check your configuration." ;;
           ret None
       | _ =>
           st_error ("❌ Error generating response: " ++ exn_str e) ;;
           ret None
       end).

Definition setup_instructions : string :=
  nl ++
  "        1. Create a .env file in your project directory" ++ nl ++
  "        2. Add the following line:" ++ nl ++
  "        GEMINI_API_KEY=your-api-key-here" ++ nl ++
  "        3. Replace 'your-api-key-here' with your actual Gemini API key" ++ nl ++
  "        ".

(** The dictionary passed to [json.dumps] when a query is sent. *)
Definition context_value (policies role_info faqs : pyval) : pyval :=
  PDict [("policies", policies); ("role_info", role_info); ("faqs", faqs)].

(** Body of [if st.button("Send"):] in [main]. *)
Definition on_send (env : Env) (model : GenerativeModel) (company_data : pyval)
    (role : string) (user_input : string) : Script unit :=
  if truthy user_input then
    policies <- subscript company_data "policies" ;;
    roles <- subscript company_data "roles" ;;
    role_info <- subscript roles role ;;
    faqs <- subscript company_data "faqs" ;;
    let context := json_dumps (context_value policies role_info faqs) in
    response <- generate_response env model user_input context ;;
    if truthy_opt response then
      match response with
      | Some response =>
          append_chat_history ("user", user_input) ;;
          append_chat_history ("assistant", response)
      | None => ret tt
      end
    else ret tt
  else ret tt.

(** The loop under [# Display chat history] in [main]. *)
Definition display_chat_history : Script unit :=
  history <- get_chat_history ;;
  for_each history (fun e =>
    if String.eqb (fst e) "user"
    then st_write ["You:"; snd e]
    else st_write ["Assistant:"; snd e]).

(** Body of [if model:] in [main]. *)
Definition page (env : Env) (inp : Inputs) (model : GenerativeModel) : Script unit :=
  let company_data := PDict load_company_data in
  render (Sidebar (Selectbox "Select your role:" role_options)) ;;
  let role := role_key (role inp) in
  sidebar_write ["### Your Role Information"] ;;
  roles <- subscript company_data "roles" ;;
  role_info <- subscript roles role ;;
  fields <- items_of role_info ;;
  for_each fields (fun kv =>
    sidebar_write ["**" ++ title (fst kv) ++ ":** " ++ str (snd kv)]) ;;
  render (TextInput "Ask me anything about Meta's policies, your role, or general questions:") ;;
  let user_input := user_input inp in
  render (Button "Send") ;;
  (if send inp then on_send env model company_data role user_input else ret tt) ;;
  display_chat_history.

(** [main()]: one run of the script.  A [GenerativeModel] object is always
    truthy, so [if model:] only excludes [None]. *)
Definition main (env : Env) (inp : Inputs) : Script unit :=
  render (PageConfig "Meta Onboarding Assistant" "🤖" "wide") ;;
  st_title "🤖 Meta Employee Onboarding Assistant" ;;
  st_write ["Welcome! I'm here to help you learn about Meta's policies, roles, and answer your questions."] ;;
  (if negb (truthy_opt (getenv_GEMINI_API_KEY env)) then
     st_error "❌ Please set up your GEMINI_API_KEY in the .env file" ;;
     st_code setup_instructions ;;
     st_stop
   else ret tt) ;;
  init_chat_history ;;
  model <- configure_gemini env ;;
  match model with
  | Some model => page env inp model
  | None => ret tt
  end.

(** ** Sessions: a sequence of runs *)

(** The transcript held by the session; an absent [chat_history] key is the
    empty transcript. *)
Definition transcript (w : World) : list entry :=
  match session_state w with
  | Some h => h
  | None => []
  end.

(** One interaction: the page is cleared and the script runs. *)
Definition run (env : Env) (inp : Inputs) (w : World) : outcome unit * World :=
  main env inp (mkWorld (calls w) [] (session_state w)).

Definition step (env : Env) (inp : Inputs) (w : World) : World :=
  snd (run env inp w).

(** A session: the runs triggered by a list of interactions, each in its
    own environment. *)
Fixpoint session (steps : list (Env * Inputs)) (w : World) : World :=
  match steps with
  | [] => w
  | (env, inp) :: rest => session rest (step env inp w)
  end.

(** A fresh process and session: nothing sent, nothing stored. *)
Definition initial_world : World := mkWorld [] [] None.

(** The prompts sent during a piece of script started in [w] and ended in [w']. *)
Definition new_calls (w w' : World) : list string :=
  skipn (length (calls w)) (calls w').

(** ** Vocabulary of the specification *)

(** [s] occurs in [t]. *)
Definition Substring (s t : string) : Prop :=
  exists before after, t = before ++ s ++ after.

(** Executable search for [s] in [t]. *)
Fixpoint containsb (s t : string) : bool :=
  String.prefix s t ||
  match t with
  | EmptyString => false
  | String _ rest => containsb s rest
  end.

Definition gemini_pro : GenerativeModel := mkModel "gemini-pro".

(** The generation client as the specification sees it: the text obtained
    for [prompt] when [n] calls were sent before, or the failure. *)
Definition generate (env : Env) (n : nat) (prompt : string) : result string :=
  match generate_content env "gemini-pro" n prompt with
  | Ok r => text r
  | Err e => Err e
  end.

(** The credential is set and the two local library calls return, so the
    validation request is sent. *)
Definition reaches_validation (env : Env) : bool :=
  match getenv_GEMINI_API_KEY env with
  | Some (String _ _ as api_key) =>
      match genai_configure env api_key, genai_GenerativeModel env "gemini-pro" with
      | None, None => true
      | _, _ => false
      end
  | _ => false
  end.

(** Model construction succeeds when [n] calls were sent before. *)
Definition startup_ok (env : Env) (n : nat) : bool :=
  reaches_validation env &&
  match generate_content env "gemini-pro" n "Test" with
  | Ok _ => true
  | Err _ => false
  end.

(** [company_data[k]] and [company_data["roles"][role]]; the lookups never
    fail (lemmas [company_value_get] and [role_info_get]). *)
Definition company_value (k : string) : pyval :=
  match dict_get k load_company_data with
  | Some v => v
  | None => PDict []
  end.

Definition role_info (r : Role) : pyval :=
  match company_value "roles" with
  | PDict roles =>
      match dict_get (role_key r) roles with
      | Some v => v
      | None => PDict []
      end
  | PStr _ => PDict []
  end.

(** The serialized context sent with a query for role [r]. *)
Definition context_of (r : Role) : string :=
  json_dumps (context_value (company_value "policies") (role_info r) (company_value "faqs")).

(** What the sidebar shows for a role record. *)
Definition role_panel (info : pyval) : list element :=
  match info with
  | PDict fields =>
      map (fun kv => Sidebar (Write ["**" ++ title (fst kv) ++ ":** " ++ str (snd kv)])) fields
  | PStr _ => []
  end.

(** The elements every run renders before the credential check. *)
Definition page_head : list element :=
  [ PageConfig "Meta Onboarding Assistant" "🤖" "wide";
    Title "🤖 Meta Employee Onboarding Assistant";
    Write ["Welcome! I'm here to help you learn about Meta's policies, roles, and answer your questions."] ].

(** The widgets of the page for role [r]. *)
Definition page_widgets (r : Role) : list element :=
  ([ Sidebar (Selectbox "Select your role:" role_options);
     Sidebar (Write ["### Your Role Information"]) ]
   ++ role_panel (role_info r)
   ++ [ TextInput "Ask me anything about Meta's policies, your role, or general questions:";
        Button "Send" ])%list.

(** One transcript entry as the page shows it. *)
Definition show_entry (e : entry) : element :=
  if String.eqb (fst e) "user"
  then Write ["You:"; snd e]
  else Write ["Assistant:"; snd e].

(** The message shown when a generation call fails with [e]. *)
Definition generation_error (e : exn) : string :=
  match e with
  | InvalidArgument _ =>
      "❌ API Error: Invalid API key or request. Please check your configuration."
  | _ => "❌ Error generating response: " ++ exn_str e
  end.

(** The message shown when the credential is missing. *)
Definition missing_key_error : string :=
  "❌ Please set up your GEMINI_API_KEY in the .env file".

(** Turns come in pairs: a [user] entry followed by an [assistant] entry. *)
Fixpoint well_paired (h : list entry) : bool :=
  match h with
  | [] => true
  | (s1, _) :: (s2, _) :: rest =>
      String.eqb s1 "user" && String.eqb s2 "assistant" && well_paired rest
  | _ => false
  end.

Definition is_space (c : ascii) : bool :=
  let n := nat_of_ascii c in ((n =? 32) || ((9 <=? n) && (n <=? 13)))%nat.

(** A non-empty string of ASCII whitespace. *)
Fixpoint all_space (s : string) : bool :=
  match s with
  | EmptyString => true
  | String c rest => is_space c && all_space rest
  end.

Definition whitespace_only (s : string) : bool := truthy s && all_space s.

(** The world after the credential check and [init_chat_history]. *)
Definition started (w : World) : World :=
  mkWorld (calls w) (screen w ++ page_head) (Some (transcript w)).

(** The world with more elements on the page. *)
Definition add_screen (w : World) (l : list element) : World :=
  mkWorld (calls w) (screen w ++ l) (session_state w).

(** ** Example environments *)

(** The credential is set and every request is answered with [answer]. *)
Definition env_answering (answer : string) : Env :=
  mkEnv (Some "secret-key") (fun _ => None) (fun _ => None)
        (fun _ _ _ => Ok (mkResponse (Ok answer))).

(** The credential is set, validation succeeds, every other request fails with [e]. *)
Definition env_failing (e : exn) : Env :=
  mkEnv (Some "secret-key") (fun _ => None) (fun _ => None)
        (fun _ _ prompt =>
           if String.eqb prompt "Test" then Ok (mkResponse (Ok "ok")) else Err e).

(** The credential is not set. *)
Definition env_without_key : Env :=
  mkEnv None (fun _ => None) (fun _ => None)
        (fun _ _ _ => Ok (mkResponse (Ok "unreachable"))).

(** ** Messages of model construction *)

(** The message shown when the model constructor or the validation request
    raises [e] (the inner [try] of [configure_gemini]). *)
Definition validation_error (e : exn) : string :=
  match e with
  | InvalidArgument _ =>
      "❌ Invalid API key. Please check your GEMINI_API_KEY in the .env file."
  | _ => "❌ Error initializing Gemini model: " ++ exn_str e
  end.

(** The message shown when [genai.configure] raises [e] (the outer [try]). *)
Definition configuration_error (e : exn) : string :=
  "❌ Configuration error: " ++ exn_str e.

(** The message of the credential test inside [configure_gemini]. *)
Definition not_found_error : string :=
  "❌ GEMINI_API_KEY not found in environment variables. Please check your .env file.".

(** A run that presses Send with a non-empty text box. *)
Definition submits (inp : Inputs) : bool := send inp && truthy (user_input inp).

(** The page holds no error element. *)
Definition no_error (l : list element) : Prop := forall msg, ~ In (Error msg) l.

(** * Properties *)

(** ** Strings *)

Section Strings.

Lemma string_app_assoc (a b c : string) : (a ++ b) ++ c = a ++ b ++ c.
Proof.
  induction a as [|x a IH]; simpl; [reflexivity | now rewrite IH].
Qed.

Lemma string_app_nil_r (a : string) : a ++ "" = a.
Proof.
  induction a as [|x a IH]; simpl; [reflexivity | now rewrite IH].
Qed.

Lemma Substring_refl (s : string) : Substring s s.
Proof.
  exists "", "". simpl. now rewrite string_app_nil_r.
Qed.

Lemma Substring_trans (s t u : string) :
  Substring s t -> Substring t u -> Substring s u.
Proof.
  intros (a & b & ->) (c & d & ->).
  exists (c ++ a), (b ++ d).
  now rewrite !string_app_assoc.
Qed.

Lemma Substring_app_l (s t pre : string) : Substring s t -> Substring s (pre ++ t).
Proof.
  intros (a & b & ->). exists (pre ++ a), b. now rewrite string_app_assoc.
Qed.

Lemma Substring_app_r (s t post : string) : Substring s t -> Substring s (t ++ post).
Proof.
  intros (a & b & ->). exists a, (b ++ post). now rewrite !string_app_assoc.
Qed.

Lemma prefix_app (s t : string) :
  String.prefix s t = true -> exists rest, t = s ++ rest.
Proof.
  revert t. induction s as [|c s IH]; intros t H.
  - exists t. reflexivity.
  - destruct t as [|d t]; simpl in H; [discriminate|].
    destruct (Ascii.ascii_dec c d) as [->|]; [|discriminate].
    destruct (IH t H) as [rest ->]. now exists rest.
Qed.

Lemma containsb_sound (s t : string) : containsb s t = true -> Substring s t.
Proof.
  induction t as [|d t IH]; intros H.
  - cbn [containsb] in H. rewrite orb_false_r in H.
    destruct (prefix_app _ _ H) as [rest E]. exists "", rest. exact E.
  - cbn [containsb] in H. apply orb_true_iff in H. destruct H as [H|H].
    + destruct (prefix_app _ _ H) as [rest E]. exists "", rest. exact E.
    + apply (Substring_app_l s t (String d "")). now apply IH.
Qed.

Lemma truthy_true (s : string) : truthy s = true <-> s <> "".
Proof.
  destruct s; simpl; split; intros; congruence.
Qed.

End Strings.

(** ** Lists of calls *)

Lemma skipn_length_app {A} (l x : list A) : skipn (length l) (l ++ x) = x.
Proof.
  induction l as [|a l IH]; simpl; [reflexivity | exact IH].
Qed.

Lemma new_calls_same (w w' : World) : calls w' = calls w -> new_calls w w' = [].
Proof.
  unfold new_calls. intros ->.
  rewrite <- (app_nil_r (calls w)) at 2. apply skipn_length_app.
Qed.

Lemma new_calls_app (w w' : World) (x : list string) :
  calls w' = (calls w ++ x)%list -> new_calls w w' = x.
Proof.
  unfold new_calls. intros ->. apply skipn_length_app.
Qed.

(** ** The knowledge base *)

Lemma company_value_get (k : string) :
  In k ["policies"; "roles"; "faqs"] ->
  dict_get k load_company_data = Some (company_value k).
Proof.
  intros [<-|[<-|[<-|[]]]]; reflexivity.
Qed.

Lemma role_info_get (r : Role) :
  exists roles fields,
    company_value "roles" = PDict roles /\
    dict_get (role_key r) roles = Some (role_info r) /\
    role_info r = PDict fields.
Proof.
  destruct r; eexists; eexists; repeat split.
Qed.

Lemma role_key_option (r : Role) : In (role_key r) role_options.
Proof.
  destruct r; simpl; auto.
Qed.

(** ** The pieces of the script *)

Ltac unfold_script :=
  cbv beta iota zeta delta
    [bind ret raise st_stop try_except st_error st_write st_code st_title
     sidebar_write render configure new_GenerativeModel
     model_generate_content response_text init_chat_history
     get_chat_history append_chat_history] in *;
  cbn [calls screen session_state model_name] in *.

Lemma show_loop (h : list entry) (w : World) :
  for_each h (fun e =>
    if String.eqb (fst e) "user"
    then st_write ["You:"; snd e]
    else st_write ["Assistant:"; snd e]) w =
  (Returned tt, mkWorld (calls w) (screen w ++ map show_entry h) (session_state w)).
Proof.
  revert w. induction h as [|e h IH]; intros [cs scr ss].
  - cbn. unfold ret. now rewrite app_nil_r.
  - cbn [for_each map]. unfold bind at 1.
    assert (E : (if String.eqb (fst e) "user"
                 then st_write ["You:"; snd e]
                 else st_write ["Assistant:"; snd e]) (mkWorld cs scr ss)
                = (Returned tt, mkWorld cs (scr ++ [show_entry e]) ss)).
    { unfold show_entry. destruct (String.eqb (fst e) "user"); reflexivity. }
    rewrite E, IH. cbn [calls screen session_state].
    now rewrite <- app_assoc.
Qed.

Lemma display_chat_history_shows (w : World) (h : list entry) :
  session_state w = Some h ->
  display_chat_history w =
    (Returned tt, mkWorld (calls w) (screen w ++ map show_entry h) (Some h)).
Proof.
  intros Hs. unfold display_chat_history, bind, get_chat_history.
  rewrite Hs, show_loop. now rewrite Hs.
Qed.

Lemma configure_gemini_ok (env : Env) (w : World) :
  startup_ok env (length (calls w)) = true ->
  configure_gemini env w =
    (Returned (Some gemini_pro),
     mkWorld (calls w ++ ["Test"]) (screen w) (session_state w)).
Proof.
  unfold startup_ok, reaches_validation, configure_gemini. intros H.
  destruct (getenv_GEMINI_API_KEY env) as [[|c key]|]; try discriminate.
  unfold_script.
  destruct (genai_configure env (String c key)); try discriminate.
  destruct (genai_GenerativeModel env "gemini-pro"); try discriminate.
  cbn [model_name calls screen session_state] in *.
  destruct (generate_content env "gemini-pro" (length (calls w)) "Test");
    [reflexivity | discriminate].
Qed.

(** When construction fails the run stops with one more error on the page;
    the validation request was sent exactly when the local calls returned. *)
Lemma configure_gemini_stops (env : Env) (w : World) :
  startup_ok env (length (calls w)) = false ->
  exists msg,
    configure_gemini env w =
      (Stopped,
       mkWorld (calls w ++ (if reaches_validation env then ["Test"] else []))
               (screen w ++ [Error msg]) (session_state w)).
Proof.
  unfold startup_ok, reaches_validation, configure_gemini. intros H.
  destruct (getenv_GEMINI_API_KEY env) as [[|c key]|];
    unfold_script; cbn [calls screen session_state];
    try (eexists; rewrite app_nil_r; reflexivity).
  destruct (genai_configure env (String c key)) as [e|].
  { eexists; rewrite app_nil_r; reflexivity. }
  destruct (genai_GenerativeModel env "gemini-pro") as [e|].
  { destruct e; eexists; rewrite app_nil_r; reflexivity. }
  cbn [model_name calls screen session_state] in *.
  destruct (generate_content env "gemini-pro" (length (calls w)) "Test") as [r|e];
    [discriminate|].
  destruct e; eexists; reflexivity.
Qed.

Lemma main_missing_key (env : Env) (inp : Inputs) (w : World) :
  truthy_opt (getenv_GEMINI_API_KEY env) = false ->
  main env inp w =
    (Stopped,
     mkWorld (calls w)
             (screen w ++ page_head ++ [Error missing_key_error; Code setup_instructions])
             (session_state w)).
Proof.
  intros H. unfold main. rewrite H. unfold_script.
  cbn [negb calls screen session_state].
  now rewrite <- !app_assoc.
Qed.

Lemma main_with_key (env : Env) (inp : Inputs) (w : World) :
  truthy_opt (getenv_GEMINI_API_KEY env) = true ->
  main env inp w =
    (model <- configure_gemini env ;;
     match model with
     | Some model => page env inp model
     | None => ret tt
     end) (started w).
Proof.
  intros H. unfold main. rewrite H. unfold started, transcript.
  unfold bind at 1 2 3 4 5. unfold st_title, st_write, render, ret, init_chat_history.
  cbn [negb calls screen session_state].
  rewrite <- !app_assoc. cbn [app].
  destruct (session_state w); reflexivity.
Qed.

Lemma reaches_validation_key (env : Env) :
  reaches_validation env = true -> truthy_opt (getenv_GEMINI_API_KEY env) = true.
Proof.
  unfold reaches_validation.
  destruct (getenv_GEMINI_API_KEY env) as [[|c key]|]; simpl; congruence.
Qed.

Lemma generate_response_sends (env : Env) (m : GenerativeModel) (q c : string) (w : World) :
  exists o scr,
    generate_response env m q c w =
      (Returned o, mkWorld (calls w ++ [build_prompt q c]) scr (session_state w)).
Proof.
  unfold generate_response. unfold_script.
  destruct (generate_content env (model_name m) (length (calls w)) (build_prompt q c))
    as [[[t|e]]|e]; cbn [text]; try destruct e; eexists; eexists; reflexivity.
Qed.

Lemma generate_response_result (env : Env) (q c : string) (w : World) :
  generate_response env gemini_pro q c w =
    match generate env (length (calls w)) (build_prompt q c) with
    | Ok t =>
        (Returned (Some t),
         mkWorld (calls w ++ [build_prompt q c]) (screen w) (session_state w))
    | Err e =>
        (Returned None,
         mkWorld (calls w ++ [build_prompt q c])
                 (screen w ++ [Error (generation_error e)]) (session_state w))
    end.
Proof.
  unfold generate_response, generate, gemini_pro. unfold_script.
  destruct (generate_content env "gemini-pro" (length (calls w)) (build_prompt q c))
    as [[[t|e]]|e]; cbn [text]; try destruct e; reflexivity.
Qed.

Lemma on_send_empty (env : Env) (m : GenerativeModel) (cd : pyval) (r : string) :
  on_send env m cd r "" = ret tt.
Proof. reflexivity. Qed.

Lemma on_send_query (env : Env) (m : GenerativeModel) (r : Role) (q : string) :
  truthy q = true ->
  on_send env m (PDict load_company_data) (role_key r) q =
    (response <- generate_response env m q (context_of r) ;;
     if truthy_opt response then
       match response with
       | Some response =>
           append_chat_history ("user", q) ;;
           append_chat_history ("assistant", response)
       | None => ret tt
       end
     else ret tt).
Proof.
  intros H. unfold on_send. rewrite H. destruct r; reflexivity.
Qed.

(** What a non-empty query does to the world, by the outcome of the call. *)
Lemma on_send_result (env : Env) (r : Role) (q : string) (w : World) (h : list entry) :
  truthy q = true ->
  session_state w = Some h ->
  let prompt := build_prompt q (context_of r) in
  on_send env gemini_pro (PDict load_company_data) (role_key r) q w =
    (Returned tt,
     match generate env (length (calls w)) prompt with
     | Ok t =>
         mkWorld (calls w ++ [prompt]) (screen w)
                 (Some (if truthy t then (h ++ [("user", q); ("assistant", t)])%list else h))
     | Err e =>
         mkWorld (calls w ++ [prompt]) (screen w ++ [Error (generation_error e)]) (Some h)
     end).
Proof.
  intros Hq Hs prompt. rewrite (on_send_query _ _ _ _ Hq).
  unfold bind at 1. rewrite generate_response_result. fold prompt.
  destruct (generate env (length (calls w)) prompt) as [t|e].
  - cbn [truthy_opt]. destruct (truthy t).
    + unfold_script. rewrite Hs. cbn [calls screen session_state].
      now rewrite <- app_assoc.
    + unfold ret. now rewrite Hs.
  - cbn [truthy_opt]. unfold ret. now rewrite Hs.
Qed.

Lemma render_then {A} (e : element) (k : Script A) (w : World) :
  (render e ;; k) w = k (add_screen w [e]).
Proof. reflexivity. Qed.

Lemma ret_then {A B} (a : A) (k : A -> Script B) (w : World) :
  (x <- ret a ;; k x) w = k a w.
Proof. reflexivity. Qed.

Lemma add_screen_twice (w : World) (a b : list element) :
  add_screen (add_screen w a) b = add_screen w (a ++ b).
Proof.
  unfold add_screen. cbn [calls screen session_state]. now rewrite app_assoc.
Qed.

Lemma for_each_render {A} (l : list A) (f : A -> element) (w : World) :
  for_each l (fun x => render (f x)) w = (Returned tt, add_screen w (map f l)).
Proof.
  revert w. induction l as [|x l IH]; intros w.
  - destruct w. unfold add_screen. cbn. unfold ret. now rewrite app_nil_r.
  - cbn [for_each map]. rewrite render_then, IH, add_screen_twice. reflexivity.
Qed.

Lemma subscript_roles : subscript (PDict load_company_data) "roles" = ret (company_value "roles").
Proof. reflexivity. Qed.

Lemma subscript_role (r : Role) :
  subscript (company_value "roles") (role_key r) = ret (role_info r).
Proof. destruct r; reflexivity. Qed.

Lemma items_of_role_info (r : Role) :
  exists fields, role_info r = PDict fields /\ items_of (role_info r) = ret fields.
Proof. destruct r; eexists; split; reflexivity. Qed.

Lemma page_result (env : Env) (inp : Inputs) (m : GenerativeModel) (w : World) :
  page env inp m w =
    ((if send inp
      then on_send env m (PDict load_company_data) (role_key (role inp)) (user_input inp)
      else ret tt) ;;
     display_chat_history)
    (add_screen w (page_widgets (role inp))).
Proof.
  unfold page, sidebar_write. rewrite !render_then.
  rewrite subscript_roles, ret_then, subscript_role, ret_then.
  destruct (items_of_role_info (role inp)) as (fields & Ef & ->).
  rewrite ret_then.
  unfold bind at 1. rewrite for_each_render.
  rewrite !render_then, !add_screen_twice.
  unfold page_widgets, role_panel. rewrite Ef.
  reflexivity.
Qed.

(** ** One run of the script, case by case *)

Lemma run_missing_key (env : Env) (inp : Inputs) (w : World) :
  truthy_opt (getenv_GEMINI_API_KEY env) = false ->
  run env inp w =
    (Stopped,
     mkWorld (calls w)
             (page_head ++ [Error missing_key_error; Code setup_instructions])
             (session_state w)).
Proof.
  intros H. unfold run. now rewrite (main_missing_key _ _ _ H).
Qed.

Lemma run_startup_stops (env : Env) (inp : Inputs) (w : World) :
  truthy_opt (getenv_GEMINI_API_KEY env) = true ->
  startup_ok env (length (calls w)) = false ->
  exists msg,
    run env inp w =
      (Stopped,
       mkWorld (calls w ++ (if reaches_validation env then ["Test"] else []))
               (page_head ++ [Error msg]) (Some (transcript w))).
Proof.
  intros Hk Hs. unfold run. rewrite (main_with_key _ _ _ Hk).
  destruct (configure_gemini_stops env (started (mkWorld (calls w) [] (session_state w))) Hs)
    as [msg E].
  exists msg. unfold bind. rewrite E. reflexivity.
Qed.

Lemma startup_ok_key (env : Env) (n : nat) :
  startup_ok env n = true -> truthy_opt (getenv_GEMINI_API_KEY env) = true.
Proof.
  unfold startup_ok. intros H. apply andb_true_iff in H.
  now apply reaches_validation_key.
Qed.

Lemma startup_ok_reaches (env : Env) (n : nat) :
  startup_ok env n = true -> reaches_validation env = true.
Proof.
  unfold startup_ok. intros H. now apply andb_true_iff in H.
Qed.

Lemma run_page (env : Env) (inp : Inputs) (w : World) :
  startup_ok env (length (calls w)) = true ->
  run env inp w =
    page env inp gemini_pro
         (mkWorld (calls w ++ ["Test"]) page_head (Some (transcript w))).
Proof.
  intros Hs. unfold run. rewrite (main_with_key _ _ _ (startup_ok_key _ _ Hs)).
  unfold bind. rewrite configure_gemini_ok by exact Hs. reflexivity.
Qed.

Lemma length_after_test (cs : list string) : length (cs ++ ["Test"]) = S (length cs).
Proof.
  rewrite length_app. simpl. lia.
Qed.

(** No query is sent: the button was not pressed, or the text box is empty. *)
Lemma run_idle (env : Env) (r : Role) (q : string) (s : bool) (w : World) :
  startup_ok env (length (calls w)) = true ->
  s = false \/ q = "" ->
  run env (mkInputs r q s) w =
    (Returned tt,
     mkWorld (calls w ++ ["Test"])
             (page_head ++ page_widgets r ++ map show_entry (transcript w))
             (Some (transcript w))).
Proof.
  intros Hs Hidle. rewrite (run_page _ _ _ Hs), page_result.
  unfold add_screen. cbn [role user_input send calls screen session_state].
  assert (E : (if s then on_send env gemini_pro (PDict load_company_data) (role_key r) q
               else ret tt) = ret tt).
  { destruct Hidle as [->| ->]; [reflexivity | now destruct s]. }
  rewrite E. unfold bind at 1. unfold ret.
  rewrite (display_chat_history_shows _ (transcript w)) by reflexivity.
  cbn [calls screen session_state]. now rewrite <- app_assoc.
Qed.

(** A non-empty query is sent. *)
Lemma run_query (env : Env) (r : Role) (q : string) (w : World) :
  startup_ok env (length (calls w)) = true ->
  truthy q = true ->
  let prompt := build_prompt q (context_of r) in
  run env (mkInputs r q true) w =
    (Returned tt,
     match generate env (S (length (calls w))) prompt with
     | Ok t =>
         let h := if truthy t
                  then (transcript w ++ [("user", q); ("assistant", t)])%list
                  else transcript w in
         mkWorld (calls w ++ ["Test"; prompt])
                 (page_head ++ page_widgets r ++ map show_entry h) (Some h)
     | Err e =>
         mkWorld (calls w ++ ["Test"; prompt])
                 (page_head ++ page_widgets r ++ [Error (generation_error e)]
                  ++ map show_entry (transcript w))
                 (Some (transcript w))
     end).
Proof.
  intros Hs Hq prompt. rewrite (run_page _ _ _ Hs), page_result.
  unfold add_screen. cbn [role user_input send calls screen session_state].
  unfold bind at 1.
  rewrite (on_send_result env r q _ (transcript w) Hq) by reflexivity.
  fold prompt. cbn [calls screen session_state].
  rewrite length_after_test.
  destruct (generate env (S (length (calls w))) prompt) as [t|e].
  - erewrite display_chat_history_shows by reflexivity.
    cbn [calls screen session_state]. now rewrite <- !app_assoc.
  - erewrite display_chat_history_shows by reflexivity.
    cbn [calls screen session_state]. now rewrite <- !app_assoc.
Qed.

(** ** Facts shared by the claims *)

Lemma bind_ext {A B} (m : Script A) (f g : A -> Script B) (w : World) :
  (forall a w', f a w' = g a w') -> bind m f w = bind m g w.
Proof.
  intros H. unfold bind. destruct (m w) as [[a| |e] w']; [apply H | reflexivity ..].
Qed.

Lemma page_empty_query (env : Env) (r : Role) (m : GenerativeModel) (w : World) :
  page env (mkInputs r "" true) m w = page env (mkInputs r "" false) m w.
Proof.
  rewrite !page_result. reflexivity.
Qed.

Lemma build_prompt_not_test (q c : string) : build_prompt q c <> "Test".
Proof.
  unfold build_prompt, nl. cbn [append]. discriminate.
Qed.

Lemma build_prompt_has_query (q c : string) : Substring q (build_prompt q c).
Proof.
  unfold build_prompt.
  repeat (apply Substring_app_l; try (apply Substring_app_r; apply Substring_refl)).
Qed.

Lemma build_prompt_has_context (q c : string) : Substring c (build_prompt q c).
Proof.
  unfold build_prompt.
  repeat (apply Substring_app_l; try (apply Substring_app_r; apply Substring_refl)).
Qed.

Lemma no_key_no_validation (env : Env) :
  truthy_opt (getenv_GEMINI_API_KEY env) = false -> reaches_validation env = false.
Proof.
  intros H. destruct (reaches_validation env) eqn:E; [|reflexivity].
  apply reaches_validation_key in E. congruence.
Qed.

(** A run that sends no query: the only possible request is the validation
    request of model construction, and the transcript is left alone. *)
Lemma idle_step (env : Env) (r : Role) (q : string) (s : bool) (w : World) :
  s = false \/ q = "" ->
  exists scr o,
    run env (mkInputs r q s) w =
      (o,
       mkWorld (calls w ++ (if reaches_validation env then ["Test"] else []))
               scr
               (if truthy_opt (getenv_GEMINI_API_KEY env)
                then Some (transcript w) else session_state w))
    /\ (forall e, o <> Raised e).
Proof.
  intros Hidle.
  destruct (truthy_opt (getenv_GEMINI_API_KEY env)) eqn:Hk.
  - destruct (startup_ok env (length (calls w))) eqn:Hs.
    + rewrite (run_idle _ _ _ _ _ Hs Hidle), (startup_ok_reaches _ _ Hs).
      eexists; eexists; split; [reflexivity | discriminate].
    + destruct (run_startup_stops _ (mkInputs r q s) _ Hk Hs) as [msg ->].
      eexists; eexists; split; [reflexivity | discriminate].
  - rewrite (run_missing_key _ _ _ Hk), (no_key_no_validation _ Hk), app_nil_r.
    eexists; eexists; split; [reflexivity | discriminate].
Qed.

Lemma transcript_some (cs : list string) (scr : list element) (h : list entry) :
  transcript (mkWorld cs scr (Some h)) = h.
Proof. reflexivity. Qed.

(** Any run extends the transcript by nothing or by one question-answer pair. *)
Lemma step_transcript (env : Env) (inp : Inputs) (w : World) :
  exists added,
    transcript (step env inp w) = (transcript w ++ added)%list /\
    (added = [] \/
     exists t, added = [("user", user_input inp); ("assistant", t)]).
Proof.
  destruct inp as [r q s]. unfold step. cbn [user_input].
  destruct (truthy q) eqn:Hq; [destruct s|];
    [destruct (startup_ok env (length (calls w))) eqn:Hs | ..].
  - rewrite (run_query _ _ _ _ Hs Hq). cbn [snd].
    destruct (generate env (S (length (calls w))) (build_prompt q (context_of r)))
      as [t|e]; [destruct (truthy t)|]; cbn zeta; rewrite transcript_some.
    + eexists; split; [reflexivity|]. right. now exists t.
    + exists []. rewrite app_nil_r. auto.
    + exists []. rewrite app_nil_r. auto.
  - destruct (truthy_opt (getenv_GEMINI_API_KEY env)) eqn:Hk.
    + destruct (run_startup_stops _ (mkInputs r q true) _ Hk Hs) as [msg ->].
      exists []. cbn [snd]. rewrite transcript_some, app_nil_r. auto.
    + rewrite (run_missing_key _ _ _ Hk). exists []. rewrite app_nil_r. auto.
  - destruct (idle_step env r q false w (or_introl eq_refl)) as (scr & o & -> & _).
    exists []. rewrite app_nil_r. cbn [snd]. split; [|auto].
    destruct (truthy_opt (getenv_GEMINI_API_KEY env)); reflexivity.
  - assert (Hq' : q = "") by (destruct q; [reflexivity | discriminate]).
    destruct (idle_step env r q s w (or_intror Hq')) as (scr & o & -> & _).
    exists []. rewrite app_nil_r. cbn [snd]. split; [|auto].
    destruct (truthy_opt (getenv_GEMINI_API_KEY env)); reflexivity.
Qed.

Lemma well_paired_app (h : list entry) (q t : string) :
  well_paired h = true ->
  well_paired (h ++ [("user", q); ("assistant", t)]) = true.
Proof.
  assert (G : forall n (l : list entry), length l <= n ->
              well_paired l = true ->
              well_paired (l ++ [("user", q); ("assistant", t)]) = true).
  { induction n as [|n IH]; intros l Hl Hp.
    - destruct l; [reflexivity | simpl in Hl; lia].
    - destruct l as [|[s1 m1] [|[s2 m2] rest]]; [reflexivity | discriminate |].
      cbn [well_paired app] in *.
      apply andb_true_iff in Hp. destruct Hp as [Hp Hrest]. rewrite Hp.
      apply IH; [simpl in Hl; lia | exact Hrest]. }
  apply (G (length h)). lia.
Qed.

Lemma well_paired_even (h : list entry) :
  well_paired h = true -> Nat.Even (length h).
Proof.
  assert (G : forall n (l : list entry), length l <= n ->
              well_paired l = true -> Nat.Even (length l)).
  { induction n as [|n IH]; intros l Hl Hp.
    - destruct l; [exists 0; reflexivity | simpl in Hl; lia].
    - destruct l as [|[s1 m1] [|[s2 m2] rest]];
        [exists 0; reflexivity | discriminate |].
      cbn [well_paired] in Hp. apply andb_true_iff in Hp. destruct Hp as [_ Hrest].
      destruct (IH rest) as [k Hk]; [simpl in Hl; lia | exact Hrest |].
      exists (S k). cbn [length]. lia. }
  apply (G (length h)). lia.
Qed.

Lemma step_well_paired (env : Env) (inp : Inputs) (w : World) :
  well_paired (transcript w) = true ->
  well_paired (transcript (step env inp w)) = true.
Proof.
  intros H. destruct (step_transcript env inp w) as (added & -> & [->|[t ->]]).
  - now rewrite app_nil_r.
  - now apply well_paired_app.
Qed.

Lemma session_well_paired (steps : list (Env * Inputs)) (w : World) :
  well_paired (transcript w) = true ->
  well_paired (transcript (session steps w)) = true.
Proof.
  revert w. induction steps as [|[env inp] steps IH]; intros w H.
  - exact H.
  - cbn [session]. apply IH. now apply step_well_paired.
Qed.

(** The requests of a run: the validation request first, exactly when the
    credential is set and the local library calls return, then at most the
    prompt for the typed query. *)
Lemma step_new_calls (env : Env) (inp : Inputs) (w : World) :
  exists query,
    calls (step env inp w) =
      (calls w ++ (if reaches_validation env then "Test" :: query else []))%list /\
    (query = [] \/
     query = [build_prompt (user_input inp) (context_of (role inp))]).
Proof.
  destruct inp as [r q s]. unfold step. cbn [user_input role].
  destruct (truthy_opt (getenv_GEMINI_API_KEY env)) eqn:Hk.
  - destruct (startup_ok env (length (calls w))) eqn:Hs.
    + rewrite (startup_ok_reaches _ _ Hs).
      destruct s; [destruct (truthy q) eqn:Hq|].
      * rewrite (run_query _ _ _ _ Hs Hq). cbn [snd].
        exists [build_prompt q (context_of r)]. split; [|now right].
        destruct (generate env (S (length (calls w))) (build_prompt q (context_of r)));
          reflexivity.
      * assert (Hq' : q = "") by (destruct q; [reflexivity | discriminate]).
        rewrite (run_idle _ _ _ _ _ Hs (or_intror Hq')). exists []. split; [reflexivity | now left].
      * rewrite (run_idle _ _ _ _ _ Hs (or_introl eq_refl)).
        exists []. split; [reflexivity | now left].
    + destruct (run_startup_stops _ (mkInputs r q s) _ Hk Hs) as [msg ->].
      exists []. split; [|now left]. cbn [snd calls].
      destruct (reaches_validation env); reflexivity.
  - rewrite (run_missing_key _ _ _ Hk), (no_key_no_validation _ Hk).
    exists []. split; [|now left]. cbn [snd calls]. now rewrite app_nil_r.
Qed.

Lemma no_sidebar_transcript (h : list entry) (e : element) :
  ~ In (Sidebar e) (map show_entry h).
Proof.
  intros H. apply in_map_iff in H. destruct H as (x & E & _).
  unfold show_entry in E. destruct (String.eqb (fst x) "user"); discriminate.
Qed.

(** The page of a run in which the model was constructed: the page head,
    the widgets for the selected role, and a rest that holds no sidebar
    element, whatever was typed and whether Send was pressed or not. *)
Lemma run_page_shape (env : Env) (r : Role) (q : string) (s : bool) (w : World) :
  startup_ok env (length (calls w)) = true ->
  exists rest,
    screen (step env (mkInputs r q s) w) = (page_head ++ page_widgets r ++ rest)%list /\
    forall e, ~ In (Sidebar e) rest.
Proof.
  intros Hs. unfold step.
  assert (Hidle : s = false \/ q = "" ->
            exists rest,
              screen (snd (run env (mkInputs r q s) w)) =
                (page_head ++ page_widgets r ++ rest)%list /\
              forall e, ~ In (Sidebar e) rest).
  { intros H. rewrite (run_idle _ _ _ _ _ Hs H). cbn [snd screen].
    eexists. split; [reflexivity|]. intros e. apply no_sidebar_transcript. }
  destruct s; [|now apply Hidle; left].
  destruct (truthy q) eqn:Hq;
    [|apply Hidle; right; destruct q; [reflexivity | discriminate]].
  rewrite (run_query _ _ _ _ Hs Hq). cbn [snd].
  destruct (generate env (S (length (calls w))) (build_prompt q (context_of r)))
    as [t|e0]; cbn zeta; cbn [screen]; eexists; (split; [reflexivity|]); intros e.
  - apply no_sidebar_transcript.
  - intros H. apply in_app_iff in H. destruct H as [[H|[]]|H]; [discriminate H|].
    exact (no_sidebar_transcript _ _ H).
Qed.

(** * The claims *)

(** ** C1: model construction and role changes *)

(** C1, as stated, fails: in a fresh session with a valid credential, the
    first run sends the validation request, and a second run in which only
    the selected role changes sends it again. *)
Lemma C1_role_change_sends_request :
  let env := env_answering "Hello" in
  let w1 := step env (mkInputs software_engineer "" false) initial_world in
  let w2 := step env (mkInputs data_scientist "" false) w1 in
  calls w1 = ["Test"] /\ calls w2 = ["Test"; "Test"] /\
  length (new_calls w1 w2) <> 0.
Proof.
  vm_compute. repeat split; discriminate.
Qed.

(** C1 (amended): the validation request of model construction is sent
    once per run of the script, not once per process.  In every run,
    whatever the widget values are, the validation request ["Test"] is
    sent, as the first request of the run, exactly when the credential is
    set and the local library calls return; it is followed by at most the
    prompt for the typed query, and no request is sent otherwise.  A run in
    which the Send button is not pressed (such as a role change) sends
    exactly that one validation request, or none, and leaves the transcript
    as it was. *)
Theorem C1_role_change_revalidates (env : Env) (w : World) :
  (forall inp,
     exists query,
       new_calls w (step env inp w) =
         (if reaches_validation env then "Test" :: query else []) /\
       (query = [] \/
        query = [build_prompt (user_input inp) (context_of (role inp))])) /\
  (forall r q,
     let w' := step env (mkInputs r q false) w in
     new_calls w w' = (if reaches_validation env then ["Test"] else []) /\
     transcript w' = transcript w).
Proof.
  split.
  - intros inp. destruct (step_new_calls env inp w) as (query & E & H).
    exists query. split; [now apply new_calls_app | exact H].
  - intros r q. cbn zeta. unfold step.
    destruct (idle_step env r q false w (or_introl eq_refl)) as (scr & o & -> & _).
    cbn [snd]. split.
    + now apply new_calls_app.
    + destruct (truthy_opt (getenv_GEMINI_API_KEY env)); reflexivity.
Qed.

(** ** C2: a successful query appends one question-answer pair *)

(** C2, as stated, fails when the returned text is empty: the request is
    sent and answered, and nothing is appended. *)
Lemma C2_empty_answer_not_recorded :
  let env := env_answering "" in
  let prompt := build_prompt "hi" (context_of software_engineer) in
  let w := step env (mkInputs software_engineer "hi" true) initial_world in
  generate env 1 prompt = Ok "" /\
  calls w = ["Test"; prompt] /\
  transcript w = [] /\
  transcript w <> (transcript initial_world ++ [("user", "hi"); ("assistant", "")])%list.
Proof.
  vm_compute. repeat split; discriminate.
Qed.

(** C2 (amended): for every non-empty query Q, if the generation call
    returns a non-empty text T, the run appends exactly the two entries
    (user, Q) and (assistant, T), in that order, to the transcript. *)
Theorem C2_submit_appends_pair (env : Env) (r : Role) (q t : string) (w : World) :
  q <> "" ->
  t <> "" ->
  startup_ok env (length (calls w)) = true ->
  generate env (S (length (calls w))) (build_prompt q (context_of r)) = Ok t ->
  fst (run env (mkInputs r q true) w) = Returned tt /\
  transcript (step env (mkInputs r q true) w) =
    (transcript w ++ [("user", q); ("assistant", t)])%list.
Proof.
  intros Hq Ht Hs Hg. apply truthy_true in Hq. apply truthy_true in Ht.
  unfold step. rewrite (run_query _ _ _ _ Hs Hq), Hg, Ht. split; reflexivity.
Qed.

Lemma C2_submit_appends_pair_witness :
  startup_ok (env_answering "Hello") (length (calls initial_world)) = true /\
  generate (env_answering "Hello") (S (length (calls initial_world)))
           (build_prompt "hi" (context_of product_manager)) = Ok "Hello" /\
  transcript (step (env_answering "Hello") (mkInputs product_manager "hi" true)
                   initial_world) =
    [("user", "hi"); ("assistant", "Hello")].
Proof.
  assert (Hq : "hi" <> "") by discriminate.
  assert (Ht : "Hello" <> "") by discriminate.
  assert (Hs : startup_ok (env_answering "Hello") (length (calls initial_world)) = true)
    by reflexivity.
  assert (Hg : generate (env_answering "Hello") (S (length (calls initial_world)))
                 (build_prompt "hi" (context_of product_manager)) = Ok "Hello")
    by reflexivity.
  split; [exact Hs|]. split; [exact Hg|].
  exact (proj2 (C2_submit_appends_pair (env_answering "Hello") product_manager
                  "hi" "Hello" initial_world Hq Ht Hs Hg)).
Defined.

(** ** C3: a failed query changes nothing and is reported *)

(** C3: for every non-empty query, if the generation call fails with any
    exception [e], the run ends normally (nothing propagates), the transcript
    is unchanged and the page shows the error message for [e]. *)
Theorem C3_failure_reported (env : Env) (r : Role) (q : string) (e : exn) (w : World) :
  q <> "" ->
  startup_ok env (length (calls w)) = true ->
  generate env (S (length (calls w))) (build_prompt q (context_of r)) = Err e ->
  fst (run env (mkInputs r q true) w) = Returned tt /\
  transcript (step env (mkInputs r q true) w) = transcript w /\
  In (Error (generation_error e)) (screen (step env (mkInputs r q true) w)).
Proof.
  intros Hq Hs Hg. apply truthy_true in Hq.
  unfold step. rewrite (run_query _ _ _ _ Hs Hq), Hg. cbn [fst snd screen].
  repeat split.
  rewrite !in_app_iff. right. right. left. now left.
Qed.

Lemma C3_failure_reported_witness :
  startup_ok (env_failing (InvalidArgument "API key not valid"))
             (length (calls initial_world)) = true /\
  generate (env_failing (InvalidArgument "API key not valid"))
           (S (length (calls initial_world)))
           (build_prompt "What tools do I use?" (context_of data_scientist))
    = Err (InvalidArgument "API key not valid") /\
  transcript (step (env_failing (InvalidArgument "API key not valid"))
                   (mkInputs data_scientist "What tools do I use?" true)
                   initial_world) = [] /\
  In (Error "❌ API Error: Invalid API key or request. Please check your configuration.")
     (screen (step (env_failing (InvalidArgument "API key not valid"))
                   (mkInputs data_scientist "What tools do I use?" true)
                   initial_world)).
Proof.
  assert (Hq : "What tools do I use?" <> "") by discriminate.
  assert (Hs : startup_ok (env_failing (InvalidArgument "API key not valid"))
                 (length (calls initial_world)) = true) by reflexivity.
  assert (Hg : generate (env_failing (InvalidArgument "API key not valid"))
                 (S (length (calls initial_world)))
                 (build_prompt "What tools do I use?" (context_of data_scientist))
               = Err (InvalidArgument "API key not valid")) by reflexivity.
  split; [exact Hs|]. split; [exact Hg|].
  exact (proj2 (C3_failure_reported _ data_scientist _ _ initial_world Hq Hs Hg)).
Defined.

(** ** C4: an empty query is not sent *)

(** C4: pressing Send with an empty text box does what a run without the
    button press does: no query reaches the generation call (no prompt built
    by [generate_response] is sent), the transcript is unchanged, and the
    run ends without an exception. *)
Theorem C4_empty_query_noop (env : Env) (r : Role) (w : World) :
  let inp := mkInputs r "" true in
  run env inp w = run env (mkInputs r "" false) w /\
  transcript (step env inp w) = transcript w /\
  (forall q c, ~ In (build_prompt q c) (new_calls w (step env inp w))) /\
  (forall e, fst (run env inp w) <> Raised e).
Proof.
  cbn zeta. split.
  { unfold run, main.
    repeat (apply bind_ext; intros ? ?).
    match goal with
    | |- context [match ?model with Some _ => _ | None => _ end] =>
        destruct model as [m|]
    end; [apply page_empty_query | reflexivity]. }
  unfold step.
  destruct (idle_step env r "" true w (or_intror eq_refl)) as (scr & o & -> & Ho).
  cbn [fst snd]. repeat split.
  - destruct (truthy_opt (getenv_GEMINI_API_KEY env)); reflexivity.
  - intros q c. erewrite new_calls_app by reflexivity.
    destruct (reaches_validation env); [|intros []].
    intros [H|[]]. symmetry in H. exact (build_prompt_not_test q c H).
  - exact Ho.
Qed.

(** ** C5: the prompt *)

(** C5: the prompt sent by [generate_response] is [build_prompt Q C]
    whatever the environment, the model and the state of the world are, so
    two evaluations for the same (Q, C) send the same string; that string
    contains Q and contains C. *)
Theorem C5_prompt_deterministic (env1 env2 : Env) (m1 m2 : GenerativeModel)
    (q c : string) (w1 w2 : World) :
  new_calls w1 (snd (generate_response env1 m1 q c w1)) = [build_prompt q c] /\
  new_calls w2 (snd (generate_response env2 m2 q c w2)) =
    new_calls w1 (snd (generate_response env1 m1 q c w1)) /\
  Substring q (build_prompt q c) /\
  Substring c (build_prompt q c).
Proof.
  destruct (generate_response_sends env1 m1 q c w1) as (o1 & scr1 & E1).
  destruct (generate_response_sends env2 m2 q c w2) as (o2 & scr2 & E2).
  rewrite E1, E2. cbn [snd].
  rewrite (new_calls_app w1 _ [build_prompt q c]) by reflexivity.
  rewrite (new_calls_app w2 _ [build_prompt q c]) by reflexivity.
  repeat split.
  - apply build_prompt_has_query.
  - apply build_prompt_has_context.
Qed.

(** ** C6: a missing credential stops every run before the page *)

Lemma session_without_key (steps : list (Env * Inputs)) (w : World) :
  (forall env inp, In (env, inp) steps ->
     truthy_opt (getenv_GEMINI_API_KEY env) = false) ->
  calls (session steps w) = calls w /\
  session_state (session steps w) = session_state w.
Proof.
  revert w. induction steps as [|[env inp] steps IH]; intros w H.
  - split; reflexivity.
  - cbn [session].
    destruct (IH (step env inp w)) as [Ec Es].
    { intros env' inp' Hin. apply (H env' inp'). now right. }
    rewrite Ec, Es. unfold step.
    rewrite (run_missing_key env inp w (H env inp (or_introl eq_refl))).
    split; reflexivity.
Qed.

(** C6: if the credential variable is absent or empty, every run stops
    right after showing the set-up message: the page consists of the page
    head, the error and the instructions, no request is sent, the session is
    not touched; hence no sequence of interactions ever reaches a generation
    call. *)
Theorem C6_missing_key_halts (env : Env) :
  getenv_GEMINI_API_KEY env = None \/ getenv_GEMINI_API_KEY env = Some "" ->
  (forall inp w,
     run env inp w =
       (Stopped,
        mkWorld (calls w)
                (page_head ++ [Error missing_key_error; Code setup_instructions])
                (session_state w))) /\
  (forall inps w, calls (session (map (pair env) inps) w) = calls w).
Proof.
  intros H.
  assert (Hk : truthy_opt (getenv_GEMINI_API_KEY env) = false)
    by (destruct H as [-> | ->]; reflexivity).
  split.
  - intros inp w. now apply run_missing_key.
  - intros inps w. apply session_without_key.
    intros env' inp' Hin. apply in_map_iff in Hin.
    destruct Hin as (x & E & _). now inversion E; subst.
Qed.

Lemma C6_missing_key_halts_witness :
  getenv_GEMINI_API_KEY env_without_key = None /\
  fst (run env_without_key (mkInputs data_scientist "What tools do I use?" true)
           initial_world) = Stopped /\
  calls (session (map (pair env_without_key)
                      [mkInputs data_scientist "What tools do I use?" true;
                       mkInputs product_manager "Hello" true])
                 initial_world) = [].
Proof.
  assert (H : getenv_GEMINI_API_KEY env_without_key = None \/
              getenv_GEMINI_API_KEY env_without_key = Some "")
    by (left; reflexivity).
  destruct (C6_missing_key_halts env_without_key H) as [Hrun Hsession].
  split; [reflexivity|]. split.
  - now rewrite Hrun.
  - now rewrite Hsession.
Defined.

(** ** C7: the role record shown and sent is the one of the knowledge base *)

(** C7: for each of the three roles the look-up [company_data["roles"][role]]
    succeeds.  In every run in which the model was constructed, whatever was
    typed and whether Send was pressed or not (so also in the run in which
    the role is only selected), the sidebar shows the selector, the heading
    and then exactly the fields of that record, in order, and nothing else.
    When a non-empty query is submitted, the prompt sent is built from the
    serialization of [{policies, role_info: roles[role], faqs}], which
    contains the serialization of the record; for [data_scientist] the
    prompt contains the tools string verbatim. *)
Theorem C7_role_info_exact (r : Role) (env : Env) (w : World) :
  startup_ok env (length (calls w)) = true ->
  exists roles fields policies faqs,
    dict_get "roles" load_company_data = Some (PDict roles) /\
    dict_get (role_key r) roles = Some (PDict fields) /\
    dict_get "policies" load_company_data = Some policies /\
    dict_get "faqs" load_company_data = Some faqs /\
    let context := json_dumps (context_value policies (PDict fields) faqs) in
    (forall q s,
       exists rest,
         screen (step env (mkInputs r q s) w) =
           (page_head
            ++ [Sidebar (Selectbox "Select your role:" role_options);
                Sidebar (Write ["### Your Role Information"])]
            ++ role_panel (PDict fields)
            ++ [TextInput "Ask me anything about Meta's policies, your role, or general questions:";
                Button "Send"]
            ++ rest)%list /\
         forall e, ~ In (Sidebar e) rest) /\
    Substring (json_dumps (PDict fields)) context /\
    (forall q,
       q <> "" ->
       new_calls w (step env (mkInputs r q true) w) = [ "Test"; build_prompt q context ] /\
       (r = data_scientist ->
        Substring "Internal analytics platforms, Python, SQL" (build_prompt q context))).
Proof.
  intros Hs.
  destruct (role_info_get r) as (roles & fields & Er & Eg & Ef).
  exists roles, fields, (company_value "policies"), (company_value "faqs").
  split. { rewrite <- Er. apply company_value_get. simpl. auto. }
  split. { now rewrite <- Ef. }
  split. { apply company_value_get. simpl. auto. }
  split. { apply company_value_get. simpl. auto. }
  cbn zeta. rewrite <- Ef. fold (context_of r).
  split; [|split].
  - intros q s. destruct (run_page_shape env r q s w Hs) as (rest & E & Hrest).
    exists rest. split; [|exact Hrest].
    rewrite E. unfold page_widgets. now rewrite <- !app_assoc.
  - clear. destruct r; apply containsb_sound; vm_compute; reflexivity.
  - intros q Hq. apply truthy_true in Hq. split.
    + unfold step. rewrite (run_query _ _ _ _ Hs Hq). cbn [snd].
      apply new_calls_app.
      destruct (generate env (S (length (calls w))) (build_prompt q (context_of r)));
        reflexivity.
    + intros ->. apply (Substring_trans _ (context_of data_scientist)).
      * apply containsb_sound. vm_compute. reflexivity.
      * apply build_prompt_has_context.
Qed.

Lemma C7_role_info_exact_witness :
  startup_ok (env_answering "Python and SQL.") (length (calls initial_world)) = true /\
  (exists rest,
     screen (step (env_answering "Python and SQL.")
                  (mkInputs data_scientist "" false) initial_world) =
       (page_head
        ++ [Sidebar (Selectbox "Select your role:" role_options);
            Sidebar (Write ["### Your Role Information"])]
        ++ [Sidebar (Write ["**Responsibilities:** Analyze user behavior and product metrics"]);
            Sidebar (Write ["**Tools:** Internal analytics platforms, Python, SQL"]);
            Sidebar (Write ["**Team_Structure:** Embedded in product teams with regular stakeholder reviews"])]
        ++ [TextInput "Ask me anything about Meta's policies, your role, or general questions:";
            Button "Send"]
        ++ rest)%list) /\
  exists context,
    new_calls initial_world
      (step (env_answering "Python and SQL.")
            (mkInputs data_scientist "What tools do I use?" true) initial_world) =
      [ "Test"; build_prompt "What tools do I use?" context ] /\
    Substring "Internal analytics platforms, Python, SQL"
              (build_prompt "What tools do I use?" context).
Proof.
  assert (Hq : "What tools do I use?" <> "") by discriminate.
  assert (Hs : startup_ok (env_answering "Python and SQL.")
                 (length (calls initial_world)) = true) by reflexivity.
  split; [exact Hs|].
  destruct (C7_role_info_exact data_scientist (env_answering "Python and SQL.")
              initial_world Hs)
    as (roles & fields & policies & faqs & Hroles & Hfields & _ & _ & Hside & _ & Hsend).
  split.
  - destruct (Hside "" false) as (rest & E & _). exists rest.
    rewrite E. vm_compute in Hroles. injection Hroles as <-.
    vm_compute in Hfields. injection Hfields as <-. reflexivity.
  - destruct (Hsend "What tools do I use?" Hq) as [Hcalls Htools].
    eexists. split; [exact Hcalls | exact (Htools eq_refl)].
Defined.

(** ** C8: a whitespace query is a query *)

(** C8, as stated, fails for an empty answer: the query [" "] is sent, the
    call succeeds with the empty text, and no (user, Q) entry is appended. *)
Lemma C8_whitespace_empty_answer :
  let env := env_answering "" in
  let w := step env (mkInputs software_engineer " " true) initial_world in
  whitespace_only " " = true /\
  generate env 1 (build_prompt " " (context_of software_engineer)) = Ok "" /\
  calls w = ["Test"; build_prompt " " (context_of software_engineer)] /\
  ~ In ("user", " ") (transcript w).
Proof.
  vm_compute. repeat split. intros [].
Qed.

(** C8 (amended): only the empty string is suppressed.  For every non-empty
    query made of whitespace the generation call is made with the prompt
    built from that query, and when it returns a non-empty text T the
    entries (user, Q) and (assistant, T) are appended. *)
Theorem C8_whitespace_is_sent (env : Env) (r : Role) (q : string) (w : World) :
  whitespace_only q = true ->
  startup_ok env (length (calls w)) = true ->
  let w' := step env (mkInputs r q true) w in
  new_calls w w' = [ "Test"; build_prompt q (context_of r) ] /\
  (forall t, t <> "" ->
     generate env (S (length (calls w))) (build_prompt q (context_of r)) = Ok t ->
     transcript w' = (transcript w ++ [("user", q); ("assistant", t)])%list).
Proof.
  intros Hw Hs. unfold whitespace_only in Hw. apply andb_true_iff in Hw.
  destruct Hw as [Hq _]. cbn zeta. unfold step.
  rewrite (run_query _ _ _ _ Hs Hq). cbn [snd]. split.
  - apply new_calls_app.
    destruct (generate env (S (length (calls w))) (build_prompt q (context_of r)));
      reflexivity.
  - intros t Ht Hg. apply truthy_true in Ht. now rewrite Hg, Ht.
Qed.

Lemma C8_whitespace_is_sent_witness :
  whitespace_only "  " = true /\
  startup_ok (env_answering "Hello") (length (calls initial_world)) = true /\
  transcript (step (env_answering "Hello") (mkInputs software_engineer "  " true)
                   initial_world) =
    [("user", "  "); ("assistant", "Hello")].
Proof.
  assert (Hw : whitespace_only "  " = true) by reflexivity.
  assert (Hs : startup_ok (env_answering "Hello") (length (calls initial_world)) = true)
    by reflexivity.
  assert (Ht : "Hello" <> "") by discriminate.
  split; [exact Hw|]. split; [exact Hs|].
  exact (proj2 (C8_whitespace_is_sent (env_answering "Hello") software_engineer "  "
                  initial_world Hw Hs) "Hello" Ht eq_refl).
Defined.

(** ** C9: an empty answer is dropped *)

(** C9: for every non-empty query, if the generation call returns the empty
    string, nothing is appended to the transcript and the page shows the
    old transcript only (no answer, and no error either); the session is
    left exactly as by a failed call. *)
Theorem C9_empty_answer_dropped (env : Env) (r : Role) (q : string) (w : World) :
  q <> "" ->
  startup_ok env (length (calls w)) = true ->
  generate env (S (length (calls w))) (build_prompt q (context_of r)) = Ok "" ->
  run env (mkInputs r q true) w =
    (Returned tt,
     mkWorld (calls w ++ [ "Test"; build_prompt q (context_of r) ])
             (page_head ++ page_widgets r ++ map show_entry (transcript w))
             (Some (transcript w))) /\
  transcript (step env (mkInputs r q true) w) = transcript w /\
  (forall env' e,
     startup_ok env' (length (calls w)) = true ->
     generate env' (S (length (calls w))) (build_prompt q (context_of r)) = Err e ->
     session_state (step env' (mkInputs r q true) w) =
     session_state (step env (mkInputs r q true) w)).
Proof.
  intros Hq Hs Hg. apply truthy_true in Hq. unfold step.
  rewrite (run_query _ _ _ _ Hs Hq), Hg. cbn zeta. cbn [truthy snd].
  repeat split.
  intros env' e Hs' Hg'. now rewrite (run_query _ _ _ _ Hs' Hq), Hg'.
Qed.

Lemma C9_empty_answer_dropped_witness :
  startup_ok (env_answering "") (length (calls initial_world)) = true /\
  generate (env_answering "") (S (length (calls initial_world)))
           (build_prompt "hi" (context_of product_manager)) = Ok "" /\
  transcript (step (env_answering "") (mkInputs product_manager "hi" true)
                   initial_world) = [].
Proof.
  assert (Hq : "hi" <> "") by discriminate.
  assert (Hs : startup_ok (env_answering "") (length (calls initial_world)) = true)
    by reflexivity.
  assert (Hg : generate (env_answering "") (S (length (calls initial_world)))
                 (build_prompt "hi" (context_of product_manager)) = Ok "")
    by reflexivity.
  split; [exact Hs|]. split; [exact Hg|].
  exact (proj1 (proj2 (C9_empty_answer_dropped (env_answering "") product_manager "hi"
                         initial_world Hq Hs Hg))).
Defined.

(** ** C10: the transcript is a sequence of question-answer pairs *)

(** C10: in every world reached from a fresh session by any sequence of
    runs, the transcript is a sequence of (user, assistant) pairs, so its
    length is even; and any further run only appends to it: the old
    transcript is a prefix of the new one, extended by nothing or by one
    pair. *)
Theorem C10_transcript_invariant (steps : list (Env * Inputs)) :
  let w := session steps initial_world in
  well_paired (transcript w) = true /\
  Nat.Even (length (transcript w)) /\
  (forall env inp,
     exists added,
       transcript (step env inp w) = (transcript w ++ added)%list /\
       (added = [] \/
        exists t, added = [("user", user_input inp); ("assistant", t)])).
Proof.
  cbn zeta.
  assert (H : well_paired (transcript (session steps initial_world)) = true)
    by (apply session_well_paired; reflexivity).
  split; [exact H|]. split; [now apply well_paired_even|].
  intros env inp. apply step_transcript.
Qed.

(** * Further properties of the script *)

(** ** Model construction ([configure_gemini]) *)

Lemma configure_gemini_validation_fails (env : Env) (w : World) (key : string) (e : exn) :
  getenv_GEMINI_API_KEY env = Some key ->
  key <> "" ->
  genai_configure env key = None ->
  genai_GenerativeModel env "gemini-pro" = None ->
  generate_content env "gemini-pro" (length (calls w)) "Test" = Err e ->
  configure_gemini env w =
    (Stopped,
     mkWorld (calls w ++ ["Test"]) (screen w ++ [Error (validation_error e)])
             (session_state w)).
Proof.
  intros Hk Hne Hc Hm Hg. unfold configure_gemini. rewrite Hk.
  destruct key as [|c key]; [congruence|].
  unfold_script. rewrite Hc, Hm. cbn [model_name]. rewrite Hg.
  destruct e; reflexivity.
Qed.

Lemma configure_gemini_constructor_fails (env : Env) (w : World) (key : string) (e : exn) :
  getenv_GEMINI_API_KEY env = Some key ->
  key <> "" ->
  genai_configure env key = None ->
  genai_GenerativeModel env "gemini-pro" = Some e ->
  configure_gemini env w =
    (Stopped,
     mkWorld (calls w) (screen w ++ [Error (validation_error e)]) (session_state w)).
Proof.
  intros Hk Hne Hc Hm. unfold configure_gemini. rewrite Hk.
  destruct key as [|c key]; [congruence|].
  unfold_script. rewrite Hc, Hm.
  destruct e; reflexivity.
Qed.

Lemma configure_gemini_configure_fails (env : Env) (w : World) (key : string) (e : exn) :
  getenv_GEMINI_API_KEY env = Some key ->
  key <> "" ->
  genai_configure env key = Some e ->
  configure_gemini env w =
    (Stopped,
     mkWorld (calls w) (screen w ++ [Error (configuration_error e)]) (session_state w)).
Proof.
  intros Hk Hne Hc. unfold configure_gemini. rewrite Hk.
  destruct key as [|c key]; [congruence|].
  unfold_script. rewrite Hc. reflexivity.
Qed.

Lemma key_truthy (env : Env) (key : string) :
  getenv_GEMINI_API_KEY env = Some key -> key <> "" ->
  truthy_opt (getenv_GEMINI_API_KEY env) = true.
Proof.
  intros -> H. now apply truthy_true.
Qed.

(** What [main] does once [configure_gemini] has stopped. *)
Lemma run_stopped_by (env : Env) (inp : Inputs) (w : World)
    (sent : list string) (msg : string) :
  truthy_opt (getenv_GEMINI_API_KEY env) = true ->
  (forall w0, configure_gemini env w0 =
     (Stopped, mkWorld (calls w0 ++ sent) (screen w0 ++ [Error msg]) (session_state w0))) ->
  run env inp w =
    (Stopped, mkWorld (calls w ++ sent) (page_head ++ [Error msg]) (Some (transcript w))).
Proof.
  intros Hk Hc. unfold run. rewrite (main_with_key _ _ _ Hk).
  unfold bind. rewrite Hc. reflexivity.
Qed.

(** X1: [configure_gemini] never returns [None] and never raises.  Either
    it returns the gemini-pro model, having sent exactly the validation
    request and rendered nothing, or it stops the run with exactly one error
    element added and at most the validation request sent.  The session
    state is never touched. *)
Theorem configure_gemini_total (env : Env) (w : World) :
  let o := fst (configure_gemini env w) in
  let w' := snd (configure_gemini env w) in
  session_state w' = session_state w /\
  ((o = Returned (Some gemini_pro) /\
    calls w' = (calls w ++ ["Test"])%list /\ screen w' = screen w)
   \/
   (o = Stopped /\
    (exists msg, screen w' = (screen w ++ [Error msg])%list) /\
    (calls w' = calls w \/ calls w' = (calls w ++ ["Test"])%list))).
Proof.
  cbn zeta. destruct (startup_ok env (length (calls w))) eqn:Hs.
  - rewrite (configure_gemini_ok _ _ Hs). cbn [fst snd calls screen session_state].
    split; [reflexivity|]. left. repeat split.
  - destruct (configure_gemini_stops _ _ Hs) as [msg ->].
    cbn [fst snd calls screen session_state].
    split; [reflexivity|]. right. split; [reflexivity|]. split.
    + now exists msg.
    + destruct (reaches_validation env); [now right | left; apply app_nil_r].
Qed.

(** X2: when the credential is set and the validation request raises [e],
    every run stops on the page head followed by one error: the fixed
    invalid-key message for [InvalidArgument], the initialization message
    with [str(e)] otherwise.  Only the validation request is sent (a typed
    query is not), and the transcript is kept. *)
Theorem validation_failure_stops_run (env : Env) (inp : Inputs) (w : World)
    (key : string) (e : exn) :
  getenv_GEMINI_API_KEY env = Some key ->
  key <> "" ->
  genai_configure env key = None ->
  genai_GenerativeModel env "gemini-pro" = None ->
  generate_content env "gemini-pro" (length (calls w)) "Test" = Err e ->
  run env inp w =
    (Stopped,
     mkWorld (calls w ++ ["Test"]) (page_head ++ [Error (validation_error e)])
             (Some (transcript w))).
Proof.
  intros Hk Hne Hc Hm Hg. unfold run.
  rewrite (main_with_key _ _ _ (key_truthy _ _ Hk Hne)).
  unfold bind.
  rewrite (configure_gemini_validation_fails env
             (started (mkWorld (calls w) [] (session_state w))) key e Hk Hne Hc Hm Hg).
  reflexivity.
Qed.

Lemma validation_failure_stops_run_witness :
  run (mkEnv (Some "secret-key") (fun _ => None) (fun _ => None)
             (fun _ _ _ => Err (InvalidArgument "API key not valid")))
      (mkInputs data_scientist "What tools do I use?" true) initial_world =
    (Stopped,
     mkWorld ["Test"]
             (page_head ++
              [Error "❌ Invalid API key. Please check your GEMINI_API_KEY in the .env file."])
             (Some [])).
Proof.
  assert (Hne : "secret-key" <> "") by discriminate.
  exact (validation_failure_stops_run
           (mkEnv (Some "secret-key") (fun _ => None) (fun _ => None)
                  (fun _ _ _ => Err (InvalidArgument "API key not valid")))
           (mkInputs data_scientist "What tools do I use?" true) initial_world
           "secret-key" (InvalidArgument "API key not valid")
           eq_refl Hne eq_refl eq_refl eq_refl).
Defined.

(** X3: when the constructor [genai.GenerativeModel] raises [e], every run
    stops with the same messages as for a failed validation, and no request
    at all is sent. *)
Theorem constructor_failure_stops_run (env : Env) (inp : Inputs) (w : World)
    (key : string) (e : exn) :
  getenv_GEMINI_API_KEY env = Some key ->
  key <> "" ->
  genai_configure env key = None ->
  genai_GenerativeModel env "gemini-pro" = Some e ->
  run env inp w =
    (Stopped,
     mkWorld (calls w) (page_head ++ [Error (validation_error e)])
             (Some (transcript w))).
Proof.
  intros Hk Hne Hc Hm.
  rewrite (run_stopped_by env inp w [] (validation_error e) (key_truthy _ _ Hk Hne)).
  - now rewrite app_nil_r.
  - intros w0. rewrite app_nil_r.
    exact (configure_gemini_constructor_fails env w0 key e Hk Hne Hc Hm).
Qed.

Lemma constructor_failure_stops_run_witness :
  run (mkEnv (Some "secret-key") (fun _ => None)
             (fun _ => Some (OtherException "model not found"))
             (fun _ _ _ => Ok (mkResponse (Ok "unused"))))
      (mkInputs product_manager "Hello" true) initial_world =
    (Stopped,
     mkWorld []
             (page_head ++ [Error "❌ Error initializing Gemini model: model not found"])
             (Some [])).
Proof.
  assert (Hne : "secret-key" <> "") by discriminate.
  exact (constructor_failure_stops_run
           (mkEnv (Some "secret-key") (fun _ => None)
                  (fun _ => Some (OtherException "model not found"))
                  (fun _ _ _ => Ok (mkResponse (Ok "unused"))))
           (mkInputs product_manager "Hello" true) initial_world
           "secret-key" (OtherException "model not found")
           eq_refl Hne eq_refl eq_refl).
Defined.

(** X4: when [genai.configure] raises [e], every run stops with the
    configuration-error message carrying [str(e)], also for
    [InvalidArgument]; no request is sent and the transcript is kept. *)
Theorem configure_failure_stops_run (env : Env) (inp : Inputs) (w : World)
    (key : string) (e : exn) :
  getenv_GEMINI_API_KEY env = Some key ->
  key <> "" ->
  genai_configure env key = Some e ->
  run env inp w =
    (Stopped,
     mkWorld (calls w) (page_head ++ [Error (configuration_error e)])
             (Some (transcript w))).
Proof.
  intros Hk Hne Hc.
  rewrite (run_stopped_by env inp w [] (configuration_error e) (key_truthy _ _ Hk Hne)).
  - now rewrite app_nil_r.
  - intros w0. rewrite app_nil_r.
    exact (configure_gemini_configure_fails env w0 key e Hk Hne Hc).
Qed.

Lemma configure_failure_stops_run_witness :
  run (mkEnv (Some "secret-key") (fun _ => Some (InvalidArgument "bad transport"))
             (fun _ => None)
             (fun _ _ _ => Ok (mkResponse (Ok "unused"))))
      (mkInputs software_engineer "" false) initial_world =
    (Stopped,
     mkWorld [] (page_head ++ [Error "❌ Configuration error: bad transport"])
             (Some [])).
Proof.
  assert (Hne : "secret-key" <> "") by discriminate.
  exact (configure_failure_stops_run
           (mkEnv (Some "secret-key") (fun _ => Some (InvalidArgument "bad transport"))
                  (fun _ => None)
                  (fun _ _ _ => Ok (mkResponse (Ok "unused"))))
           (mkInputs software_engineer "" false) initial_world
           "secret-key" (InvalidArgument "bad transport")
           eq_refl Hne eq_refl).
Defined.

(** ** The generation call ([generate_response]) *)

(** X5: [generate_response] always returns (it neither raises nor stops
    the run), sends exactly one request, the built prompt, and leaves the
    session alone.  It returns the text when both the call and the reading of
    [response.text] succeed and renders nothing then; in every other case it
    returns [None] and renders exactly one error element. *)
Theorem generate_response_total (env : Env) (m : GenerativeModel) (q c : string)
    (w : World) :
  exists o scr,
    generate_response env m q c w =
      (Returned o, mkWorld (calls w ++ [build_prompt q c]) scr (session_state w)) /\
    match generate_content env (model_name m) (length (calls w)) (build_prompt q c) with
    | Ok r =>
        match text r with
        | Ok t => o = Some t /\ scr = screen w
        | Err e => o = None /\ scr = (screen w ++ [Error (generation_error e)])%list
        end
    | Err e => o = None /\ scr = (screen w ++ [Error (generation_error e)])%list
    end.
Proof.
  unfold generate_response. unfold_script.
  destruct (generate_content env (model_name m) (length (calls w)) (build_prompt q c))
    as [[[t|e]]|e]; cbn [text]; try destruct e;
    eexists; eexists; (split; [reflexivity | split; reflexivity]).
Qed.

(** ** Runs of [main] *)

Lemma submits_false (r : Role) (q : string) (s : bool) :
  submits (mkInputs r q s) = false -> s = false \/ q = "".
Proof.
  unfold submits. cbn [send user_input]. destruct s; [|now left].
  destruct q; [now right | discriminate].
Qed.

Lemma submits_true (r : Role) (q : string) (s : bool) :
  submits (mkInputs r q s) = true -> s = true /\ truthy q = true.
Proof.
  unfold submits. cbn [send user_input]. intros H. now apply andb_true_iff in H.
Qed.

(** X6: no run of [main] ends with an exception: whatever the environment,
    the widget values and the session are, the run either completes or is
    ended by [st.stop()]. *)
Theorem run_never_raises (env : Env) (inp : Inputs) (w : World) (e : exn) :
  fst (run env inp w) <> Raised e.
Proof.
  destruct inp as [r q s].
  destruct (truthy_opt (getenv_GEMINI_API_KEY env)) eqn:Hk;
    [|rewrite (run_missing_key _ _ _ Hk); discriminate].
  destruct (startup_ok env (length (calls w))) eqn:Hs.
  - destruct (submits (mkInputs r q s)) eqn:Hsub.
    + destruct (submits_true _ _ _ Hsub) as [-> Hq].
      rewrite (run_query _ _ _ _ Hs Hq). discriminate.
    + rewrite (run_idle _ _ _ _ _ Hs (submits_false _ _ _ Hsub)). discriminate.
  - destruct (run_startup_stops _ (mkInputs r q s) _ Hk Hs) as [msg ->]. discriminate.
Qed.

(** X7: a run sends no request, or the validation request alone, or the
    validation request followed by the prompt for the typed query and the
    selected role; the last case occurs exactly when model construction
    succeeds and Send is pressed with a non-empty text box. *)
Theorem run_requests (env : Env) (inp : Inputs) (w : World) :
  exists sent,
    calls (step env inp w) = (calls w ++ sent)%list /\
    (sent = [] \/ sent = ["Test"] \/
     sent = ["Test"; build_prompt (user_input inp) (context_of (role inp))]) /\
    (length sent = 2 <->
     startup_ok env (length (calls w)) = true /\ submits inp = true).
Proof.
  destruct inp as [r q s]. unfold step. cbn [user_input role].
  destruct (truthy_opt (getenv_GEMINI_API_KEY env)) eqn:Hk.
  - destruct (startup_ok env (length (calls w))) eqn:Hs.
    + destruct (submits (mkInputs r q s)) eqn:Hsub.
      * destruct (submits_true _ _ _ Hsub) as [-> Hq].
        rewrite (run_query _ _ _ _ Hs Hq). cbn [snd].
        exists ["Test"; build_prompt q (context_of r)].
        split; [|split; [auto | split; auto]].
        destruct (generate env (S (length (calls w))) (build_prompt q (context_of r)));
          reflexivity.
      * rewrite (run_idle _ _ _ _ _ Hs (submits_false _ _ _ Hsub)). cbn [snd calls].
        exists ["Test"]. split; [reflexivity|]. split; [auto|].
        cbn [length]. split; [discriminate | intros [_ ?]; discriminate].
    + destruct (run_startup_stops _ (mkInputs r q s) _ Hk Hs) as [msg ->].
      cbn [snd calls]. eexists. split; [reflexivity|].
      destruct (reaches_validation env); cbn [length];
        (split; [auto | split; [discriminate | intros [? _]; discriminate]]).
  - rewrite (run_missing_key _ _ _ Hk). cbn [snd calls].
    exists []. rewrite app_nil_r. split; [reflexivity|]. split; [auto|].
    cbn [length]. split; [discriminate|].
    intros [Hs _]. apply startup_ok_key in Hs. congruence.
Qed.

Lemma step_sends_at_most_two (env : Env) (inp : Inputs) (w : World) :
  exists sent,
    calls (step env inp w) = (calls w ++ sent)%list /\ length sent <= 2.
Proof.
  destruct inp as [r q s]. unfold step.
  destruct (truthy_opt (getenv_GEMINI_API_KEY env)) eqn:Hk.
  - destruct (startup_ok env (length (calls w))) eqn:Hs.
    + destruct (submits (mkInputs r q s)) eqn:Hsub.
      * destruct (submits_true _ _ _ Hsub) as [-> Hq].
        rewrite (run_query _ _ _ _ Hs Hq). cbn [snd].
        exists ["Test"; build_prompt q (context_of r)]. split; [|cbn; lia].
        destruct (generate env (S (length (calls w))) (build_prompt q (context_of r)));
          reflexivity.
      * rewrite (run_idle _ _ _ _ _ Hs (submits_false _ _ _ Hsub)). cbn [snd calls].
        exists ["Test"]. split; [reflexivity | cbn; lia].
    + destruct (run_startup_stops _ (mkInputs r q s) _ Hk Hs) as [msg ->].
      cbn [snd calls]. eexists. split; [reflexivity|].
      destruct (reaches_validation env); cbn; lia.
  - rewrite (run_missing_key _ _ _ Hk). cbn [snd calls].
    exists []. rewrite app_nil_r. split; [reflexivity | cbn; lia].
Qed.

(** X8: the log of requests only grows, by at most two requests per run:
    after any sequence of runs the old log is a prefix of the new one. *)
Theorem session_requests_bound (steps : list (Env * Inputs)) (w : World) :
  exists sent,
    calls (session steps w) = (calls w ++ sent)%list /\
    length sent <= 2 * length steps.
Proof.
  revert w. induction steps as [|[env inp] steps IH]; intros w.
  - exists []. rewrite app_nil_r. split; [reflexivity | simpl; lia].
  - cbn [session]. destruct (IH (step env inp w)) as (sent2 & E2 & L2).
    destruct (step_sends_at_most_two env inp w) as (sent1 & E1 & L1).
    exists (sent1 ++ sent2)%list. split.
    + now rewrite E2, E1, app_assoc.
    + rewrite length_app. cbn [length]. lia.
Qed.

(** ** What the page shows *)

Lemma run_returned_startup (env : Env) (inp : Inputs) (w : World) :
  fst (run env inp w) = Returned tt -> startup_ok env (length (calls w)) = true.
Proof.
  intros H. destruct (startup_ok env (length (calls w))) eqn:Hs; [reflexivity|].
  destruct (truthy_opt (getenv_GEMINI_API_KEY env)) eqn:Hk.
  - destruct (run_startup_stops _ inp _ Hk Hs) as [msg E]. rewrite E in H. discriminate.
  - rewrite (run_missing_key _ _ _ Hk) in H. discriminate.
Qed.

(** X9: the page of a completed run is the page head, the widgets for the
    selected role, at most one error, and then the whole transcript as it
    stands after the run, oldest entry first.  The error is there exactly
    when a query was sent and the generation call failed. *)
Theorem completed_run_page (env : Env) (inp : Inputs) (w : World) :
  fst (run env inp w) = Returned tt ->
  let w' := step env inp w in
  let prompt := build_prompt (user_input inp) (context_of (role inp)) in
  exists errors,
    screen w' =
      (page_head ++ page_widgets (role inp) ++ errors
       ++ map show_entry (transcript w'))%list /\
    ((errors = [] /\
      (submits inp = false \/
       exists t, generate env (S (length (calls w))) prompt = Ok t))
     \/
     (exists e, errors = [Error (generation_error e)] /\
                submits inp = true /\
                generate env (S (length (calls w))) prompt = Err e)).
Proof.
  intros Hret. pose proof (run_returned_startup _ _ _ Hret) as Hs. clear Hret.
  destruct inp as [r q s]. cbn zeta. cbn [user_input role]. unfold step.
  destruct (submits (mkInputs r q s)) eqn:Hsub.
  - destruct (submits_true _ _ _ Hsub) as [-> Hq].
    rewrite (run_query _ _ _ _ Hs Hq). cbn [snd].
    destruct (generate env (S (length (calls w))) (build_prompt q (context_of r)))
      as [t|e]; cbn zeta; cbn [screen]; rewrite transcript_some.
    + exists []. split; [reflexivity|]. left. split; [reflexivity|]. right. now exists t.
    + exists [Error (generation_error e)]. split; [reflexivity|]. right. now exists e.
  - rewrite (run_idle _ _ _ _ _ Hs (submits_false _ _ _ Hsub)). cbn [snd screen].
    rewrite transcript_some. exists []. split; [reflexivity|]. left. auto.
Qed.

Lemma completed_run_page_witness :
  fst (run (env_failing (OtherException "timeout"))
           (mkInputs product_manager "Hello" true) initial_world) = Returned tt /\
  exists errors,
    screen (step (env_failing (OtherException "timeout"))
                 (mkInputs product_manager "Hello" true) initial_world) =
      (page_head ++ page_widgets product_manager ++ errors
       ++ map show_entry
            (transcript (step (env_failing (OtherException "timeout"))
                              (mkInputs product_manager "Hello" true) initial_world)))%list.
Proof.
  assert (H : fst (run (env_failing (OtherException "timeout"))
                       (mkInputs product_manager "Hello" true) initial_world)
              = Returned tt) by reflexivity.
  split; [exact H|].
  destruct (completed_run_page _ _ _ H) as (errors & E & _).
  exists errors. exact E.
Defined.

(** X10: an answer is shown by the run that obtained it: when a non-empty
    query gets a non-empty text, the page of that run ends with the question
    labelled [You:] followed by the answer labelled [Assistant:]. *)
Theorem answer_is_displayed (env : Env) (r : Role) (q t : string) (w : World) :
  q <> "" ->
  t <> "" ->
  startup_ok env (length (calls w)) = true ->
  generate env (S (length (calls w))) (build_prompt q (context_of r)) = Ok t ->
  exists before,
    screen (step env (mkInputs r q true) w) =
      (before ++ [Write ["You:"; q]; Write ["Assistant:"; t]])%list.
Proof.
  intros Hq Ht Hs Hg. apply truthy_true in Hq. apply truthy_true in Ht.
  unfold step. rewrite (run_query _ _ _ _ Hs Hq), Hg, Ht. cbn zeta. cbn [snd screen].
  rewrite map_app.
  exists (page_head ++ page_widgets r ++ map show_entry (transcript w))%list.
  rewrite <- !app_assoc. reflexivity.
Qed.

Lemma answer_is_displayed_witness :
  startup_ok (env_answering "Hello") (length (calls initial_world)) = true /\
  exists before,
    screen (step (env_answering "Hello") (mkInputs software_engineer "hi" true)
                 initial_world) =
      (before ++ [Write ["You:"; "hi"]; Write ["Assistant:"; "Hello"]])%list.
Proof.
  assert (Hq : "hi" <> "") by discriminate.
  assert (Ht : "Hello" <> "") by discriminate.
  assert (Hs : startup_ok (env_answering "Hello") (length (calls initial_world)) = true)
    by reflexivity.
  split; [exact Hs|].
  exact (answer_is_displayed (env_answering "Hello") software_engineer "hi" "Hello"
           initial_world Hq Ht Hs eq_refl).
Defined.

Lemma no_error_app (a b : list element) : no_error a -> no_error b -> no_error (a ++ b).
Proof.
  intros Ha Hb msg H. apply in_app_iff in H. destruct H; [now apply (Ha msg) | now apply (Hb msg)].
Qed.

Lemma no_error_page_head : no_error page_head.
Proof.
  intros msg [H|[H|[H|[]]]]; discriminate.
Qed.

Lemma no_error_sidebar {A} (f : A -> element) (l : list A) :
  no_error (map (fun x => Sidebar (f x)) l).
Proof.
  intros msg H. apply in_map_iff in H. destruct H as (x & E & _). discriminate.
Qed.

Lemma no_error_page_widgets (r : Role) : no_error (page_widgets r).
Proof.
  unfold page_widgets. repeat apply no_error_app.
  - intros msg [H|[H|[]]]; discriminate.
  - unfold role_panel. destruct (role_info r); [intros msg [] | apply no_error_sidebar].
  - intros msg [H|[H|[]]]; discriminate.
Qed.

Lemma no_error_transcript (h : list entry) : no_error (map show_entry h).
Proof.
  intros msg H. apply in_map_iff in H. destruct H as (x & E & _).
  unfold show_entry in E. destruct (String.eqb (fst x) "user"); discriminate.
Qed.

Lemma generation_error_not_found (e : exn) : generation_error e <> not_found_error.
Proof.
  destruct e; unfold generation_error, not_found_error; cbn [append]; discriminate.
Qed.

(** When the credential is set, the message of a stopped construction is not
    the one of the credential test. *)
Lemma configure_gemini_stop_message (env : Env) (w : World) :
  truthy_opt (getenv_GEMINI_API_KEY env) = true ->
  startup_ok env (length (calls w)) = false ->
  exists msg,
    msg <> not_found_error /\
    configure_gemini env w =
      (Stopped,
       mkWorld (calls w ++ (if reaches_validation env then ["Test"] else []))
               (screen w ++ [Error msg]) (session_state w)).
Proof.
  unfold startup_ok, reaches_validation, configure_gemini. intros Hk H.
  destruct (getenv_GEMINI_API_KEY env) as [[|c key]|]; try discriminate.
  unfold_script.
  destruct (genai_configure env (String c key)) as [e|].
  { eexists; rewrite app_nil_r; split; [|reflexivity].
    unfold not_found_error; cbn [append]; discriminate. }
  destruct (genai_GenerativeModel env "gemini-pro") as [e|].
  { destruct e; eexists; rewrite app_nil_r; (split; [|reflexivity]);
      unfold not_found_error; cbn [append]; discriminate. }
  cbn [model_name calls screen session_state] in *.
  destruct (generate_content env "gemini-pro" (length (calls w)) "Test") as [r|e];
    [discriminate|].
  destruct e; eexists; (split; [|reflexivity]);
    unfold not_found_error; cbn [append]; discriminate.
Qed.

(** X11: the credential test inside [configure_gemini] never fires in a run
    of [main], which has stopped before on a missing credential: no page
    ever shows its message. *)
Theorem not_found_message_never_shown (env : Env) (inp : Inputs) (w : World) :
  ~ In (Error not_found_error) (screen (step env inp w)).
Proof.
  unfold step. destruct inp as [r q s].
  destruct (truthy_opt (getenv_GEMINI_API_KEY env)) eqn:Hk.
  - destruct (startup_ok env (length (calls w))) eqn:Hs.
    + destruct (submits (mkInputs r q s)) eqn:Hsub.
      * destruct (submits_true _ _ _ Hsub) as [-> Hq].
        rewrite (run_query _ _ _ _ Hs Hq). cbn [snd].
        destruct (generate env (S (length (calls w))) (build_prompt q (context_of r)))
          as [t|e]; cbn zeta; cbn [screen]; rewrite !in_app_iff.
        -- intros [H|[H|H]].
           ++ exact (no_error_page_head _ H).
           ++ exact (no_error_page_widgets r _ H).
           ++ exact (no_error_transcript _ _ H).
        -- intros [H|[H|[H|H]]].
           ++ exact (no_error_page_head _ H).
           ++ exact (no_error_page_widgets r _ H).
           ++ destruct H as [H|[]]. inversion H as [E].
              exact (generation_error_not_found e E).
           ++ exact (no_error_transcript _ _ H).
      * rewrite (run_idle _ _ _ _ _ Hs (submits_false _ _ _ Hsub)). cbn [snd screen].
        rewrite !in_app_iff. intros [H|[H|H]].
        -- exact (no_error_page_head _ H).
        -- exact (no_error_page_widgets r _ H).
        -- exact (no_error_transcript _ _ H).
    + unfold run. rewrite (main_with_key _ _ _ Hk). unfold bind.
      destruct (configure_gemini_stop_message env
                  (started (mkWorld (calls w) [] (session_state w))) Hk Hs)
        as (msg & Hmsg & ->).
      cbn [snd screen started app]. rewrite in_app_iff. intros [H|[H|[]]].
      * exact (no_error_page_head _ H).
      * inversion H as [E]. exact (Hmsg E).
  - rewrite (run_missing_key _ _ _ Hk). cbn [snd screen].
    rewrite in_app_iff. intros [H|[H|[H|[]]]].
    + exact (no_error_page_head _ H).
    + unfold missing_key_error, not_found_error in H. discriminate H.
    + discriminate H.
Qed.

(** ** Where transcript entries come from *)

(** A run leaves the transcript as it is, or records the typed query and
    the non-empty text generated for it. *)
Lemma step_transcript_origin (env : Env) (inp : Inputs) (w : World) :
  transcript (step env inp w) = transcript w \/
  (submits inp = true /\
   exists t,
     t <> "" /\
     generate env (S (length (calls w)))
              (build_prompt (user_input inp) (context_of (role inp))) = Ok t /\
     transcript (step env inp w) =
       (transcript w ++ [("user", user_input inp); ("assistant", t)])%list).
Proof.
  destruct inp as [r q s]. unfold step. cbn [user_input role].
  destruct (truthy_opt (getenv_GEMINI_API_KEY env)) eqn:Hk;
    [|left; now rewrite (run_missing_key _ _ _ Hk)].
  destruct (startup_ok env (length (calls w))) eqn:Hs;
    [|left; destruct (run_startup_stops _ (mkInputs r q s) _ Hk Hs) as [msg ->];
      reflexivity].
  destruct (submits (mkInputs r q s)) eqn:Hsub;
    [|left; now rewrite (run_idle _ _ _ _ _ Hs (submits_false _ _ _ Hsub))].
  destruct (submits_true _ _ _ Hsub) as [-> Hq].
  rewrite (run_query _ _ _ _ Hs Hq). cbn [snd].
  destruct (generate env (S (length (calls w))) (build_prompt q (context_of r)))
    as [t|e]; [|now left].
  destruct (truthy t) eqn:Ht; cbn zeta; rewrite transcript_some; [|now left].
  right. split; [reflexivity|]. exists t. repeat split. now apply truthy_true.
Qed.

(** X12: every entry of the transcript comes from a run that pressed Send
    with a non-empty text box: a [user] entry is the text typed in that run,
    verbatim, and the entry after it is the non-empty text the generation
    call returned for the prompt built from that text and the role selected
    in that run.  Nothing else is ever recorded. *)
Theorem transcript_provenance (steps : list (Env * Inputs)) (w : World) (e : entry) :
  In e (transcript (session steps w)) ->
  In e (transcript w) \/
  exists env inp n,
    In (env, inp) steps /\ submits inp = true /\
    (e = ("user", user_input inp) \/
     (fst e = "assistant" /\ snd e <> "" /\
      generate env n (build_prompt (user_input inp) (context_of (role inp)))
        = Ok (snd e))).
Proof.
  revert w. induction steps as [|[env inp] steps IH]; intros w H.
  - now left.
  - cbn [session] in H. destruct (IH _ H) as [Hin | (env' & inp' & n & Hin & Hsub & He)].
    + destruct (step_transcript_origin env inp w) as [E | (Hsub & t & Ht & Hg & E)];
        rewrite E in Hin; [now left|].
      apply in_app_iff in Hin. destruct Hin as [Hin | [<- | [<- | []]]]; [now left | |];
        right; exists env, inp, (S (length (calls w)));
        (split; [now left | split; [exact Hsub|]]).
      * now left.
      * right. cbn [fst snd]. auto.
    + right. exists env', inp', n. split; [now right | auto].
Qed.

Lemma transcript_provenance_witness :
  In ("assistant", "Hello")
     (transcript (session [(env_answering "Hello", mkInputs data_scientist "hi" true)]
                          initial_world)) /\
  (In ("assistant", "Hello") (transcript initial_world) \/
   exists env inp n,
     In (env, inp) [(env_answering "Hello", mkInputs data_scientist "hi" true)] /\
     submits inp = true /\
     (("assistant", "Hello") = ("user", user_input inp) \/
      (fst ("assistant", "Hello") = "assistant" /\ snd ("assistant", "Hello") <> "" /\
       generate env n (build_prompt (user_input inp) (context_of (role inp)))
         = Ok (snd ("assistant", "Hello"))))).
Proof.
  assert (H : In ("assistant", "Hello")
                 (transcript (session [(env_answering "Hello",
                                        mkInputs data_scientist "hi" true)]
                                      initial_world)))
    by (vm_compute; right; left; reflexivity).
  split; [exact H|].
  exact (transcript_provenance _ initial_world _ H).
Defined.

(** X13: the transcript grows by at most two entries per run that pressed
    Send with a non-empty text box, and not at all in other runs. *)
Theorem transcript_length_bound (steps : list (Env * Inputs)) (w : World) :
  length (transcript (session steps w)) <=
  length (transcript w) + 2 * length (filter (fun s => submits (snd s)) steps).
Proof.
  revert w. induction steps as [|[env inp] steps IH]; intros w.
  - cbn. lia.
  - cbn [session filter snd]. specialize (IH (step env inp w)).
    destruct (step_transcript_origin env inp w) as [E | (Hsub & t & _ & _ & E)].
    + rewrite E in IH. destruct (submits inp); cbn [length]; lia.
    + rewrite E, length_app in IH. rewrite Hsub. cbn [length] in *. lia.
Qed.

(** ** The look-ups of the query branch *)

(** X14: the dictionary look-ups that build the context are outside the
    [try] of [generate_response]: for a non-empty query and a role name that
    is not a key of the knowledge base, the branch raises [KeyError] for
    that name, sends no request and changes nothing. *)
Theorem on_send_unknown_role (env : Env) (m : GenerativeModel) (name q : string)
    (w : World) :
  q <> "" ->
  ~ In name role_options ->
  on_send env m (PDict load_company_data) name q w = (Raised (KeyError name), w).
Proof.
  intros Hq Hname. apply truthy_true in Hq. unfold on_send. rewrite Hq.
  assert (E : forall k, String.eqb name k = true -> In k role_options -> False).
  { intros k Hk Hin. apply String.eqb_eq in Hk. subst k. exact (Hname Hin). }
  assert (E1 : String.eqb name "software_engineer" = false).
  { destruct (String.eqb name "software_engineer") eqn:H; [|reflexivity].
    exfalso. apply (E _ H). simpl. auto. }
  assert (E2 : String.eqb name "product_manager" = false).
  { destruct (String.eqb name "product_manager") eqn:H; [|reflexivity].
    exfalso. apply (E _ H). simpl. auto. }
  assert (E3 : String.eqb name "data_scientist" = false).
  { destruct (String.eqb name "data_scientist") eqn:H; [|reflexivity].
    exfalso. apply (E _ H). simpl. auto. }
  change (subscript (PDict load_company_data) "policies")
    with (@ret pyval (company_value "policies")).
  rewrite ret_then.
  change (subscript (PDict load_company_data) "roles")
    with (@ret pyval (company_value "roles")).
  rewrite ret_then.
  unfold bind, subscript, raise.
  set (v := company_value "roles"). vm_compute in v. subst v.
  cbn [dict_get]. rewrite E1, E2, E3. reflexivity.
Qed.

Lemma on_send_unknown_role_witness :
  on_send (env_answering "Hello") gemini_pro (PDict load_company_data)
          "intern" "What tools do I use?" initial_world =
    (Raised (KeyError "intern"), initial_world).
Proof.
  assert (Hq : "What tools do I use?" <> "") by discriminate.
  assert (Hn : ~ In "intern" role_options).
  { intros [H|[H|[H|[]]]]; discriminate H. }
  exact (on_send_unknown_role (env_answering "Hello") gemini_pro "intern"
           "What tools do I use?" initial_world Hq Hn).
Defined.

(** ** The prompt as a record of the request *)

Lemma string_length_app (a b : string) :
  String.length (a ++ b) = String.length a + String.length b.
Proof.
  induction a as [|c a IH]; cbn [append String.length]; [reflexivity | now rewrite IH].
Qed.

Lemma string_app_inv_head (a x y : string) : a ++ x = a ++ y -> x = y.
Proof.
  induction a as [|c a IH]; cbn [append]; intros H; [exact H|].
  injection H as H. now apply IH.
Qed.

Lemma string_app_inv_tail (x y b : string) : x ++ b = y ++ b -> x = y.
Proof.
  revert y. induction x as [|c x IH]; intros [|d y] H.
  - reflexivity.
  - apply (f_equal String.length) in H. cbn [append] in H.
    change (String d (y ++ b)) with (String d y ++ b) in H.
    rewrite string_length_app in H. cbn [String.length] in H. lia.
  - apply (f_equal String.length) in H. cbn [append] in H.
    change (String c (x ++ b)) with (String c x ++ b) in H.
    rewrite string_length_app in H. cbn [String.length] in H. lia.
  - cbn [append] in H. injection H as -> H. f_equal. now apply IH.
Qed.

Lemma context_of_injective_prefix (r1 r2 : Role) (x y : string) :
  context_of r1 ++ x = context_of r2 ++ y -> r1 = r2.
Proof.
  destruct r1, r2; intros H; try reflexivity; exfalso;
    match type of H with
    | ?c1 ++ _ = ?c2 ++ _ =>
        let v1 := eval vm_compute in c1 in
        let v2 := eval vm_compute in c2 in
        change c1 with v1 in H; change c2 with v2 in H
    end;
    cbn [append] in H; discriminate H.
Qed.

(** X15: a request identifies what was asked: two prompts built by the
    script for a role and a query are equal only if the role and the query
    are the same.  The query is inserted as typed, so distinct queries never
    share a prompt. *)
Theorem prompt_determines_role_and_query (r1 r2 : Role) (q1 q2 : string) :
  build_prompt q1 (context_of r1) = build_prompt q2 (context_of r2) ->
  r1 = r2 /\ q1 = q2.
Proof.
  unfold build_prompt. intros H.
  repeat apply string_app_inv_head in H.
  pose proof (context_of_injective_prefix _ _ _ _ H) as <-.
  split; [reflexivity|].
  repeat apply string_app_inv_head in H.
  now apply string_app_inv_tail in H.
Qed.

Lemma prompt_determines_role_and_query_witness :
  data_scientist = data_scientist /\ "What tools do I use?" = "What tools do I use?".
Proof.
  exact (prompt_determines_role_and_query data_scientist data_scientist
           "What tools do I use?" "What tools do I use?" eq_refl).
Defined.
